(** * parse_input_MA_EMAIL: OrbFit elements to barycentric equatorial vectors

    A shallow embedding of [cheby_checker/archaic/parse_input_MA_EMAIL.py]
    and the properties of its parsing and frame-transformation pipeline.

    Conventions of the embedding:
    - a Python [float] is a real number ([R]); [inf], [nan] and rounding are
      outside the model, so an identity that needs an exact cancellation
      holds here in exact arithmetic only; where a statement turns on the
      rounding, the same arithmetic is read in binary64 (the definitions
      named [..._f64]);
    - a Python [str] is a [string] (code points below 256);
    - a numpy array is an [ndarray]: a scalar, a list, a list of rows, or an
      array of higher dimension of which only the shape is kept;
    - a call either returns, raises an exception or exits the interpreter
      ([outcome]); methods of [ParseElements] thread the object through a
      small state-and-exception monad, so that what a method wrote before it
      raised stays visible;
    - what the module imports from elsewhere (the ephemeris kernel, astropy's
      time scales, the parsing and the formatting of floats, the file
      system) is a variable of the section [Pipeline]. *)

From Stdlib Require Import Reals Lra Lia String Ascii Bool Arith PeanoNat List.
From Stdlib Require Import PrimFloat.
Import ListNotations.

Open Scope string_scope.
Open Scope list_scope.
Open Scope R_scope.

(** ** Outcomes of a call *)

Inductive exn : Type :=
| TypeError_no_valid_elements     (* parse_orbfit: no cartesian section *)
| TypeError_nothing_to_transform  (* make_bary_equatorial: no helio_ecl data *)
| TypeError_ele220file            (* parse_ele220: argument missing *)
| TypeError_not_iterable          (* enumerate(None) *)
| TypeError_format                (* format spec applied to an array *)
| ValueError_unpack               (* wrong number of values to unpack *)
| ValueError_float                (* could not convert string to float *)
| ValueError_not_in_list          (* list.index: value absent *)
| IndexError
| AttributeError                  (* attribute (self.time) never assigned *)
| AssertionError
| FileNotFoundError.

Inductive outcome (A : Type) : Type :=
| Returned (a : A)
| Raised (e : exn)
| Exited.                         (* sys.exit: the interpreter terminates *)

Arguments Returned {A} a.
Arguments Raised {A} e.
Arguments Exited {A}.

Definition obind {A B} (c : outcome A) (k : A -> outcome B) : outcome B :=
  match c with
  | Returned a => k a
  | Raised e => Raised e
  | Exited => Exited
  end.

Declare Scope outcome_scope.
Delimit Scope outcome_scope with outcome.
Notation "x <- c ;; k" := (obind c (fun x => k))
  (at level 61, c at next level, right associativity) : outcome_scope.
Notation "' p <- c ;; k" := (obind c (fun x => match x with p => k end))
  (at level 61, p pattern, c at next level, right associativity) : outcome_scope.

(** ** Python strings and lists *)

(** [str.isspace] on one character, for code points below 256. *)
Definition isspace (c : ascii) : bool :=
  let n := nat_of_ascii c in
  ((9 <=? n) && (n <=? 13) || (28 <=? n) && (n <=? 32)
   || (n =? 133) || (n =? 160))%nat.

(** [s.split()]: maximal runs of non-space characters, in order.
    [cur] is the token being read, reversed. *)
Definition rev_string (cs : list ascii) : string :=
  string_of_list_ascii (rev cs).

Fixpoint split_from (s : string) (cur : list ascii) : list string :=
  match s with
  | EmptyString =>
      match cur with
      | [] => []
      | _ => [rev_string cur]
      end
  | String c s' =>
      if isspace c then
        match cur with
        | [] => split_from s' []
        | _ => rev_string cur :: split_from s' []
        end
      else split_from s' (c :: cur)
  end.

Definition split (s : string) : list string := split_from s [].

(** [s[:n]] *)
Definition prefix (n : nat) (s : string) : string := substring 0 n s.

(** [l.count(x)], [l.index(x)] (None: ValueError), [l[i]] (None: IndexError),
    [l[a:b]] for [0 <= a <= b]. *)
Fixpoint count (x : string) (l : list string) : nat :=
  match l with
  | [] => 0
  | y :: l' => ((if String.eqb y x then 1 else 0) + count x l')%nat
  end.

Fixpoint index (x : string) (l : list string) : option nat :=
  match l with
  | [] => None
  | y :: l' =>
      if String.eqb y x then Some 0%nat
      else match index x l' with
           | Some i => Some (S i)
           | None => None
           end
  end.

Definition getitem {A} (l : list A) (i : nat) : outcome A :=
  match nth_error l i with
  | Some a => Returned a
  | None => Raised IndexError
  end.

Definition slice {A} (l : list A) (a b : nat) : list A :=
  firstn (b - a) (skipn a l).

(** ** numpy arrays *)

Inductive ndarray : Type :=
| Array0 (x : R)                       (* ndim 0 *)
| Array1 (v : list R)                  (* ndim 1 *)
| Array2 (m : list (list R))           (* ndim 2, by rows *)
| ArrayN (d0 d1 d2 : nat) (ds : list nat).   (* ndim >= 3: shape only *)

Definition ncols (m : list (list R)) : nat := length (hd [] m).

Definition ndim (a : ndarray) : nat :=
  match a with
  | Array0 _ => 0
  | Array1 _ => 1
  | Array2 _ => 2
  | ArrayN _ _ _ ds => 3 + length ds
  end.

Definition shape (a : ndarray) : list nat :=
  match a with
  | Array0 _ => []
  | Array1 v => [length v]
  | Array2 m => [length m; ncols m]
  | ArrayN d0 d1 d2 ds => d0 :: d1 :: d2 :: ds
  end.

(** The arrays numpy can build: the rows of a 2-D array have one length. *)
Definition wf_ndarray (a : ndarray) : Prop :=
  match a with
  | Array2 m => Forall (fun row => length row = ncols m) m
  | _ => True
  end.

Definition data1 (a : ndarray) : list R :=
  match a with Array1 v => v | _ => [] end.

Definition data2 (a : ndarray) : list (list R) :=
  match a with Array2 m => m | _ => [] end.

Definition atleast_1d (a : ndarray) : ndarray :=
  match a with
  | Array0 x => Array1 [x]
  | _ => a
  end.

Definition zeros (n m : nat) : list (list R) := repeat (repeat 0 m) n.
Definition ones (n m : nat) : list (list R) := repeat (repeat 1 m) n.

Fixpoint dot (u v : list R) : R :=
  match u, v with
  | x :: u', y :: v' => x * y + dot u' v'
  | _, _ => 0
  end.

Fixpoint vadd (u v : list R) : list R :=
  match u, v with
  | x :: u', y :: v' => (x + y) :: vadd u' v'
  | _, _ => []
  end.

(** [M.T] *)
Fixpoint transpose_cols (n : nat) (m : list (list R)) : list (list R) :=
  match n with
  | O => []
  | S n' => map (fun row => hd 0 row) m
            :: transpose_cols n' (map (fun row => tl row) m)
  end.

Definition transpose (m : list (list R)) : list (list R) :=
  transpose_cols (ncols m) m.

(** [M @ v] and [A @ B] *)
Definition matvec (m : list (list R)) (v : list R) : list R :=
  map (fun row => dot row v) m.

Definition matmul (a b : list (list R)) : list (list R) :=
  map (fun row => map (fun col => dot row col) (transpose b)) a.

(** [np.block([[a, b], [c, d]])] *)
Fixpoint hstack (a b : list (list R)) : list (list R) :=
  match a, b with
  | ra :: a', rb :: b' => (ra ++ rb) :: hstack a' b'
  | _, _ => []
  end.

Definition block (a b c d : list (list R)) : list (list R) :=
  hstack a b ++ hstack c d.

(** [M[i, j]] and [M[i, j] = x] *)
Definition entry (m : list (list R)) (i j : nat) : R :=
  nth j (nth i m []) 0.

Fixpoint set_nth {A} (l : list A) (i : nat) (x : A) : list A :=
  match l, i with
  | [], _ => []
  | _ :: l', O => x :: l'
  | y :: l', S i' => y :: set_nth l' i' x
  end.

Definition setitem (m : list (list R)) (i j : nat) (x : R) : list (list R) :=
  set_nth m i (set_nth (nth i m []) j x).

Definition symmetric (m : list (list R)) : Prop :=
  forall i j, (i < 6)%nat -> (j < 6)%nat -> entry m i j = entry m j i.

(** ** Constants and imported functions *)

Definition au_km : R := 149597870.700.

(** Modelled from the spec: [mpc.Constants.ecl] belongs to the imported MPC
    library, which is not part of the sources.  It is the mean obliquity of
    the ecliptic, given in arc seconds and converted to radians; the proofs
    use no more of its value than that it lies strictly between 0 and
    [PI]. *)
Definition Constants_ecl : R := 84381.4118 * (1 / 3600) * PI / 180.

(** Modelled from the spec: [mpc.rotate_matrix] belongs to the imported MPC
    library, which is not part of the sources.  It is the fixed 3x3
    rotation matrix built from the obliquity, a rotation about the x axis,
    which the negated angle inverts. *)
Definition rotate_matrix (ecl : R) : list (list R) :=
  let ce := cos ecl in
  let se := sin (- ecl) in
  [[1; 0; 0]; [0; ce; se]; [0; - se; ce]].

(** [-1 if backwards else +1] *)
Definition direction_of (backwards : bool) : R :=
  if backwards then -1 else 1.

(** [n in [a, b, ...]] *)
Definition mem (n : nat) (l : list nat) : bool := existsb (Nat.eqb n) l.

Fixpoint shape_eqb (s1 s2 : list nat) : bool :=
  match s1, s2 with
  | [], [] => true
  | a :: s1', b :: s2' => (a =? b)%nat && shape_eqb s1' s2'
  | _, _ => false
  end.

(** ** Frame transforms *)

Definition ecliptic_to_equatorial (input : ndarray) (backwards : bool)
  : outcome ndarray :=
  let input := atleast_1d input in
  let direction := direction_of backwards in
  let R3 := rotate_matrix (Constants_ecl * direction) in
  let R6 := block R3 (zeros 3 3) (zeros 3 3) R3 in
  (output <-
     (if (ndim input =? 1)%nat && mem (nth 0 (shape input) 0%nat) [3; 6]%nat
      then
        let Rm := if (nth 0 (shape input) 0 =? 6)%nat then R6 else R3 in
        Returned (Array1 (matvec Rm (data1 input)))
      else if (ndim input =? 2)%nat && shape_eqb (shape input) [6; 6]%nat
      then
        Returned (Array2 (matmul (matmul R6 (data2 input)) (transpose R6)))
      else Exited) ;;
   if shape_eqb (shape output) (shape input) then Returned output
   else Raised AssertionError)%outcome.

(** A Python value that is either [None] or an array.  [np.atleast_1d(None)]
    is an object array of shape (1,), which no branch accepts. *)
Definition ecliptic_to_equatorial_value (input : option ndarray)
  (backwards : bool) : outcome ndarray :=
  match input with
  | Some a => ecliptic_to_equatorial a backwards
  | None => Exited
  end.

Definition vec3 : Type := R * R * R.

Definition array3 (d : vec3) : list R :=
  let '(x, y, z) := d in [x; y; z].

Section Ephemeris.

(** [mpc.jpl_kernel[0, 10].compute_and_differentiate]: position (km) and
    motion (km/day) of the barycenter with respect to the heliocenter at a
    TDB Julian date, each a 3-vector. *)
Variable compute_and_differentiate : R -> vec3 * vec3.

Definition equatorial_helio2bary (input_xyz : ndarray) (jd_tdb : R)
  (backwards : bool) : outcome ndarray :=
  let direction := direction_of backwards in
  let input_xyz := atleast_1d input_xyz in
  if negb (ndim input_xyz =? 1)%nat then Raised AssertionError
  else if negb (mem (nth 0 (shape input_xyz) 0%nat) [3; 6]%nat)
  then Raised AssertionError
  else
    let '(delta, delta_vel) := compute_and_differentiate jd_tdb in
    let delta :=
      if (nth 0 (shape input_xyz) 0 =? 3)%nat then array3 delta
      else array3 delta ++ array3 delta_vel in
    Returned
      (Array1 (vadd (data1 input_xyz)
                    (map (fun d => d * direction / au_km) delta))).

End Ephemeris.

(** ** The ParseElements object *)

Inductive time_format : Type := fmt_mjd | fmt_jd.
Inductive time_scale : Type := scale_tt | scale_tdb.

(** An astropy [Time]: a value with its format and its time scale. *)
Record Time : Type := mkTime {
  time_val : R;
  time_fmt : time_format;
  time_scale_of : time_scale
}.

(** An attribute that holds [None] or an array is an [option ndarray];
    [time] and [tstart] are [None] while the attribute is not assigned. *)
Record ParseElements : Type := mkParseElements {
  helio_ecl_vec_EXISTS : bool;
  helio_ecl_vec : option ndarray;
  helio_ecl_cov_EXISTS : bool;
  helio_ecl_cov : option ndarray;
  bary_eq_vec_EXISTS : bool;
  bary_eq_vec : option ndarray;
  bary_eq_cov_EXISTS : bool;
  bary_eq_cov : option ndarray;
  time : option Time;
  tstart : option R
}.

(** The attributes as [__init__] first assigns them. *)
Definition empty_object : ParseElements :=
  mkParseElements false None false None false None false None None None.

Definition with_helio_ecl_vec_EXISTS (b : bool) (o : ParseElements) :=
  mkParseElements b (helio_ecl_vec o) (helio_ecl_cov_EXISTS o)
    (helio_ecl_cov o) (bary_eq_vec_EXISTS o) (bary_eq_vec o)
    (bary_eq_cov_EXISTS o) (bary_eq_cov o) (time o) (tstart o).

Definition with_helio_ecl_vec (v : option ndarray) (o : ParseElements) :=
  mkParseElements (helio_ecl_vec_EXISTS o) v (helio_ecl_cov_EXISTS o)
    (helio_ecl_cov o) (bary_eq_vec_EXISTS o) (bary_eq_vec o)
    (bary_eq_cov_EXISTS o) (bary_eq_cov o) (time o) (tstart o).

Definition with_helio_ecl_cov_EXISTS (b : bool) (o : ParseElements) :=
  mkParseElements (helio_ecl_vec_EXISTS o) (helio_ecl_vec o) b
    (helio_ecl_cov o) (bary_eq_vec_EXISTS o) (bary_eq_vec o)
    (bary_eq_cov_EXISTS o) (bary_eq_cov o) (time o) (tstart o).

Definition with_helio_ecl_cov (v : option ndarray) (o : ParseElements) :=
  mkParseElements (helio_ecl_vec_EXISTS o) (helio_ecl_vec o)
    (helio_ecl_cov_EXISTS o) v (bary_eq_vec_EXISTS o) (bary_eq_vec o)
    (bary_eq_cov_EXISTS o) (bary_eq_cov o) (time o) (tstart o).

Definition with_bary_eq_vec_EXISTS (b : bool) (o : ParseElements) :=
  mkParseElements (helio_ecl_vec_EXISTS o) (helio_ecl_vec o)
    (helio_ecl_cov_EXISTS o) (helio_ecl_cov o) b (bary_eq_vec o)
    (bary_eq_cov_EXISTS o) (bary_eq_cov o) (time o) (tstart o).

Definition with_bary_eq_vec (v : option ndarray) (o : ParseElements) :=
  mkParseElements (helio_ecl_vec_EXISTS o) (helio_ecl_vec o)
    (helio_ecl_cov_EXISTS o) (helio_ecl_cov o) (bary_eq_vec_EXISTS o) v
    (bary_eq_cov_EXISTS o) (bary_eq_cov o) (time o) (tstart o).

Definition with_bary_eq_cov_EXISTS (b : bool) (o : ParseElements) :=
  mkParseElements (helio_ecl_vec_EXISTS o) (helio_ecl_vec o)
    (helio_ecl_cov_EXISTS o) (helio_ecl_cov o) (bary_eq_vec_EXISTS o)
    (bary_eq_vec o) b (bary_eq_cov o) (time o) (tstart o).

Definition with_bary_eq_cov (v : option ndarray) (o : ParseElements) :=
  mkParseElements (helio_ecl_vec_EXISTS o) (helio_ecl_vec o)
    (helio_ecl_cov_EXISTS o) (helio_ecl_cov o) (bary_eq_vec_EXISTS o)
    (bary_eq_vec o) (bary_eq_cov_EXISTS o) v (time o) (tstart o).

Definition with_time (t : option Time) (o : ParseElements) :=
  mkParseElements (helio_ecl_vec_EXISTS o) (helio_ecl_vec o)
    (helio_ecl_cov_EXISTS o) (helio_ecl_cov o) (bary_eq_vec_EXISTS o)
    (bary_eq_vec o) (bary_eq_cov_EXISTS o) (bary_eq_cov o) t (tstart o).

Definition with_tstart (x : option R) (o : ParseElements) :=
  mkParseElements (helio_ecl_vec_EXISTS o) (helio_ecl_vec o)
    (helio_ecl_cov_EXISTS o) (helio_ecl_cov o) (bary_eq_vec_EXISTS o)
    (bary_eq_vec o) (bary_eq_cov_EXISTS o) (bary_eq_cov o) (time o) x.

(** ** Methods: state and exceptions

    A method takes the object and gives back the object as it left it,
    with the outcome of the call. *)

Definition method (A : Type) : Type :=
  ParseElements -> ParseElements * outcome A.

Definition mret {A} (a : A) : method A := fun self => (self, Returned a).

Definition mbind {A B} (c : method A) (k : A -> method B) : method B :=
  fun self =>
    match c self with
    | (self', Returned a) => k a self'
    | (self', Raised e) => (self', Raised e)
    | (self', Exited) => (self', Exited)
    end.

Definition lift {A} (o : outcome A) : method A := fun self => (self, o).
Definition raise {A} (e : exn) : method A := lift (Raised e).
Definition get_self : method ParseElements := fun self => (self, Returned self).
Definition assign (f : ParseElements -> ParseElements) : method unit :=
  fun self => (f self, Returned tt).

Declare Scope method_scope.
Delimit Scope method_scope with method.
Notation "x <- c ;; k" := (mbind c (fun x => k))
  (at level 61, c at next level, right associativity) : method_scope.
Notation "c ;; k" := (mbind c (fun _ => k))
  (at level 61, right associativity) : method_scope.
Notation "' p <- c ;; k" := (mbind c (fun x => match x with p => k end))
  (at level 61, p pattern, c at next level, right associativity) : method_scope.

(** ** The parsing and conversion pipeline *)

(** The newline character, and the header of the cartesian section as
    [readlines] returns it. *)
Definition nl : string := String (ascii_of_nat 10) EmptyString.

Definition cart_head : string :=
  ("! Cartesian position and velocity vectors" ++ nl)%string.

Section Pipeline.

Variable compute_and_differentiate : R -> vec3 * vec3.

(** [t.tdb.jd]: astropy's conversion of a time to the TDB scale, as a
    Julian date.  The conversion is taken to succeed: an epoch that astropy
    cannot convert (it then raises from its ERFA routines) is outside the
    model. *)
Variable tdb_jd : Time -> R.

(** [float(s)] on a string; [None] where Python raises ValueError. *)
Variable float : string -> option R.

(** [open(name, 'r').readlines()]; [None] where the file cannot be
    opened. *)
Variable readlines : string -> option (list string).

(** [format(x, spec)] on a float, as an f-string applies it. *)
Variable format_float : string -> R -> string.

Definition to_float (s : string) : outcome R :=
  match float s with
  | Some x => Returned x
  | None => Raised ValueError_float
  end.

(** [_, CoV[a], CoV[b], CoV[c] = line.split()]: the right-hand side is
    unpacked first, then the targets are assigned from left to right,
    each string converted as it is stored into the float array. *)
Definition unpack_row (CoV : list (list R)) (line : string)
  (a b c : nat * nat) : outcome (list (list R)) :=
  match split line with
  | [_; sa; sb; sc] =>
      (xa <- to_float sa ;;
       let CoV := setitem CoV (fst a) (snd a) xa in
       xb <- to_float sb ;;
       let CoV := setitem CoV (fst b) (snd b) xb in
       xc <- to_float sc ;;
       let CoV := setitem CoV (fst c) (snd c) xc in
       Returned CoV)%outcome
  | _ => Raised ValueError_unpack
  end.

(** [for i in range(1,6): for j in range(i): CoV[i,j] = CoV[j,i]] *)
Definition mirror_lower (CoV : list (list R)) : list (list R) :=
  fold_left
    (fun CoV i =>
       fold_left (fun CoV j => setitem CoV i j (entry CoV j i))
                 (seq 0 i) CoV)
    (seq 1 5) CoV.

Definition is_cov_line (El : string) : bool :=
  String.eqb (prefix 4 El) " COV".

Definition _parse_Covariance_List (Els : list string)
  : outcome (bool * ndarray) :=
  let CoV := zeros 6 6 in
  let CoV_EXISTS := false in
  let ElCov := filter is_cov_line Els in
  if (length ElCov =? 7)%nat then
    (l0 <- getitem ElCov 0 ;;
     CoV <- unpack_row CoV l0 (0, 0)%nat (0, 1)%nat (0, 2)%nat ;;
     l1 <- getitem ElCov 1 ;;
     CoV <- unpack_row CoV l1 (0, 3)%nat (0, 4)%nat (0, 5)%nat ;;
     l2 <- getitem ElCov 2 ;;
     CoV <- unpack_row CoV l2 (1, 1)%nat (1, 2)%nat (1, 3)%nat ;;
     l3 <- getitem ElCov 3 ;;
     CoV <- unpack_row CoV l3 (1, 4)%nat (1, 5)%nat (2, 2)%nat ;;
     l4 <- getitem ElCov 4 ;;
     CoV <- unpack_row CoV l4 (2, 3)%nat (2, 4)%nat (2, 5)%nat ;;
     l5 <- getitem ElCov 5 ;;
     CoV <- unpack_row CoV l5 (3, 3)%nat (3, 4)%nat (3, 5)%nat ;;
     l6 <- getitem ElCov 6 ;;
     CoV <- unpack_row CoV l6 (4, 4)%nat (4, 5)%nat (5, 5)%nat ;;
     let CoV := mirror_lower CoV in
     let CoV_EXISTS := true in
     Returned (CoV_EXISTS, Array2 CoV))%outcome
  else Returned (CoV_EXISTS, Array2 CoV).

Definition index_or_raise (x : string) (l : list string) : outcome nat :=
  match index x l with
  | Some i => Returned i
  | None => Raised ValueError_not_in_list
  end.

Definition parse_orbfit (felfile : string) : method unit :=
  (el <- lift (match readlines felfile with
               | Some el => Returned el
               | None => Raised FileNotFoundError
               end) ;;
   if (0 <? count cart_head el)%nat then
     i <- lift (index_or_raise cart_head (rev el)) ;;
     let carLoc := (length el - 1 - i)%nat in
     let carEls := slice el carLoc (carLoc + 25) in
     line1 <- lift (getitem carEls 1) ;;
     match split line1 with
     | [_; car_x; car_y; car_z; car_dx; car_dy; car_dz] =>
         x <- lift (to_float car_x) ;;
         y <- lift (to_float car_y) ;;
         z <- lift (to_float car_z) ;;
         dx <- lift (to_float car_dx) ;;
         dy <- lift (to_float car_dy) ;;
         dz <- lift (to_float car_dz) ;;
         assign (with_helio_ecl_vec (Some (Array1 [x; y; z; dx; dy; dz]))) ;;
         assign (with_helio_ecl_vec_EXISTS true) ;;
         line2 <- lift (getitem carEls 2) ;;
         match split line2 with
         | [_; mjd_tdt; _] =>
             mjd <- lift (to_float mjd_tdt) ;;
             assign (with_time (Some (mkTime mjd fmt_mjd scale_tt))) ;;
             ' (CoV_EXISTS, CoV) <- lift (_parse_Covariance_List carEls) ;;
             assign (with_helio_ecl_cov_EXISTS CoV_EXISTS) ;;
             assign (with_helio_ecl_cov (Some CoV))
         | _ => raise ValueError_unpack
         end
     | _ => raise ValueError_unpack
     end
   else raise TypeError_no_valid_elements)%method.

(** [self.time.tdb.jd] *)
Definition self_time_tdb_jd : method R :=
  (self <- get_self ;;
   match time self with
   | Some t => mret (tdb_jd t)
   | None => raise AttributeError
   end)%method.

Definition make_bary_equatorial : method bool :=
  (self <- get_self ;;
   (if helio_ecl_vec_EXISTS self then
      rotated <- lift (ecliptic_to_equatorial_value (helio_ecl_vec self)
                                                    false) ;;
      jd <- self_time_tdb_jd ;;
      v <- lift (equatorial_helio2bary compute_and_differentiate
                                       rotated jd false) ;;
      assign (with_bary_eq_vec (Some v)) ;;
      assign (with_bary_eq_vec_EXISTS true)
    else mret tt) ;;
   self <- get_self ;;
   (if helio_ecl_cov_EXISTS self then
      c <- lift (ecliptic_to_equatorial_value (helio_ecl_cov self) false) ;;
      assign (with_bary_eq_cov (Some c)) ;;
      assign (with_bary_eq_cov_EXISTS true)
    else mret tt) ;;
   self <- get_self ;;
   if negb (helio_ecl_vec_EXISTS self) && negb (helio_ecl_cov_EXISTS self)
   then raise TypeError_nothing_to_transform
   else mret true)%method.

Definition _get_and_set_junk_data (BaryEqDirect : bool) : method unit :=
  (assign (with_time (Some (mkTime 2458849.5 fmt_jd scale_tdb))) ;;
   let v := Array1 [3; 2; 1; 0.3; 0.2; 0.1] in
   let CoV := Array2 (map (map (Rmult 0.01)) (ones 6 6)) in
   if negb BaryEqDirect then
     assign (with_helio_ecl_vec (Some v)) ;;
     assign (with_helio_ecl_vec_EXISTS true) ;;
     assign (with_helio_ecl_cov (Some CoV)) ;;
     assign (with_helio_ecl_cov_EXISTS true) ;;
     _ <- make_bary_equatorial ;;
     mret tt
   else
     assign (with_bary_eq_vec (Some v)) ;;
     assign (with_bary_eq_vec_EXISTS true) ;;
     assign (with_bary_eq_cov (Some CoV)) ;;
     assign (with_bary_eq_cov_EXISTS true))%method.

Definition parse_ele220 (ele220file : option string) : method unit :=
  match ele220file with
  | None => raise TypeError_ele220file
  | Some _ => _get_and_set_junk_data false
  end.

(** The loop of [save_elements]: [n] counts the coefficients already
    written, [out] is the text written so far. *)
Fixpoint write_coeffs (n : nat) (coeffs : list R) (out : string) : string :=
  match coeffs with
  | [] => out
  | coeff :: rest =>
      let suffix := if mem n [2; 5]%nat then nl else EmptyString in
      write_coeffs (S n) rest
        (out ++ (format_float " 18.15e" coeff ++ " " ++ suffix))%string
  end.

(** [save_elements] with the default [output_file]: the object as it is
    left, the text passed to [outfile.write] so far ([None] if the file was
    not opened) and the outcome.  The method never closes or flushes the
    file: the text reaches the disk when the file object is released, which
    on a return is at the end of the call. *)
Definition save_elements (self : ParseElements)
  : ParseElements * option string * outcome unit :=
  match time self with
  | None => (self, None, Raised AttributeError)
  | Some t =>
      let self := with_tstart (Some (tdb_jd t)) self in
      let out :=
        ("tstart " ++ format_float EmptyString (tdb_jd t) ++ nl
         ++ "tstep +20.0" ++ nl
         ++ "trange 600." ++ nl
         ++ "geocentric 0" ++ nl
         ++ "state" ++ nl)%string in
      match bary_eq_vec self with
      | None => (self, Some out, Raised TypeError_not_iterable)
      | Some (Array0 _) => (self, Some out, Raised TypeError_not_iterable)
      | Some (Array1 coeffs) =>
          (self, Some (write_coeffs 0 coeffs out), Returned tt)
      | Some (Array2 []) => (self, Some out, Returned tt)
      | Some (Array2 (_ :: _)) => (self, Some out, Raised TypeError_format)
      | Some (ArrayN O _ _ _) => (self, Some out, Returned tt)
      | Some (ArrayN (S _) _ _ _) =>
          (self, Some out, Raised TypeError_format)
      end
  end.

(** [__init__]: the object, the output file and the outcome. *)
Definition init (input_file filetype : option string) (save_parsed : bool)
  : ParseElements * option string * outcome unit :=
  let self := empty_object in
  match input_file, filetype with
  | Some input_file, Some filetype =>
      match
        ((if String.eqb filetype "ele220"
          then parse_ele220 (Some input_file) else mret tt) ;;
         (if String.eqb filetype "fel" || String.eqb filetype "eq"
          then parse_orbfit input_file else mret tt) ;;
         make_bary_equatorial)%method self
      with
      | (self, Returned _) =>
          if save_parsed then save_elements self
          else (self, None, Returned tt)
      | (self, Raised e) => (self, None, Raised e)
      | (self, Exited) => (self, None, Exited)
      end
  | _, _ => (self, None, Returned tt)
  end.

(** The call [ParseElements(input_file, filetype, save_parsed)]: the
    caller holds an object only if [__init__] returned. *)
Definition ParseElements_new (input_file filetype : option string)
  (save_parsed : bool) : outcome ParseElements :=
  match init input_file filetype save_parsed with
  | (self, _, Returned _) => Returned self
  | (_, _, Raised e) => Raised e
  | (_, _, Exited) => Exited
  end.

End Pipeline.

(** ** The transforms, named for the statements *)

(** [R3] and [R6] of [ecliptic_to_equatorial], by direction. *)
Definition rot3 (backwards : bool) : list (list R) :=
  rotate_matrix (Constants_ecl * direction_of backwards).

Definition rot6 (backwards : bool) : list (list R) :=
  block (rot3 backwards) (zeros 3 3) (zeros 3 3) (rot3 backwards).

(** The shapes the rotation accepts. *)
Definition accepted_shape (input : ndarray) : Prop :=
  (ndim input = 1%nat /\ (shape input = [3%nat] \/ shape input = [6%nat]))
  \/ (ndim input = 2%nat /\ shape input = [6; 6]%nat).

(** The displacement of the translation in astronomical units: the three
    position components of the ephemeris, then its three rates. *)
Definition displacement_au (compute_and_differentiate : R -> vec3 * vec3)
  (jd_tdb : R) (i : nat) : R :=
  nth i (array3 (fst (compute_and_differentiate jd_tdb))
         ++ array3 (snd (compute_and_differentiate jd_tdb))) 0 / au_km.



(** What the transform step needs of the fields it reads: a vector that is
    flagged present is a 1-D array of length 3 or 6 with an epoch beside
    it, a covariance that is flagged present is a 6x6 array. *)
Definition transformable (self : ParseElements) : Prop :=
  (helio_ecl_vec_EXISTS self = true ->
   exists v t,
     helio_ecl_vec self = Some (Array1 v)
     /\ (length v = 3%nat \/ length v = 6%nat)
     /\ time self = Some t)
  /\ (helio_ecl_cov_EXISTS self = true ->
      exists m,
        helio_ecl_cov self = Some (Array2 m)
        /\ shape (Array2 m) = [6; 6]%nat).

(** ** The covariance block, as the format describes it *)

(** The three numeric fields of a covariance row: the line splits into a
    prefix and three tokens, and each token converts. *)
Definition parsed_row (float : string -> option R) (line : string)
  : option (list R) :=
  match split line with
  | [_; sa; sb; sc] =>
      match float sa, float sb, float sc with
      | Some x, Some y, Some z => Some [x; y; z]
      | _, _, _ => None
      end
  | _ => None
  end.

(** The entries of the rows, in the order of the lines. *)
Fixpoint parsed_entries (float : string -> option R) (lines : list string)
  : option (list R) :=
  match lines with
  | [] => Some []
  | l :: ls =>
      match parsed_row float l, parsed_entries float ls with
      | Some r, Some rs => Some (r ++ rs)
      | _, _ => None
      end
  end.

(** The place of [C[i,j]], [i <= j], among the 21 entries of the upper
    triangle listed row by row. *)
Definition upper_index (i j : nat) : nat :=
  (i * 6 - i * (i - 1) / 2 + (j - i))%nat.

(** The 6x6 matrix with the entries [xs] in its upper triangle, in that
    order, and the lower triangle mirrored. *)
Definition upper_mirrored (xs : list R) : list (list R) :=
  map (fun i =>
         map (fun j => nth (upper_index (Nat.min i j) (Nat.max i j)) xs 0)
             (seq 0 6))
      (seq 0 6).

(** ** The file parser and the output file, in parts *)

(** The body of [parse_orbfit] once the section [carEls] is cut out of the
    file: the assignments from the lines at offsets 1 and 2 and from the
    covariance rows. *)
Definition parse_section (float : string -> option R)
  (carEls : list string) : method unit :=
  (line1 <- lift (getitem carEls 1) ;;
   match split line1 with
   | [_; car_x; car_y; car_z; car_dx; car_dy; car_dz] =>
       x <- lift (to_float float car_x) ;;
       y <- lift (to_float float car_y) ;;
       z <- lift (to_float float car_z) ;;
       dx <- lift (to_float float car_dx) ;;
       dy <- lift (to_float float car_dy) ;;
       dz <- lift (to_float float car_dz) ;;
       assign (with_helio_ecl_vec (Some (Array1 [x; y; z; dx; dy; dz]))) ;;
       assign (with_helio_ecl_vec_EXISTS true) ;;
       line2 <- lift (getitem carEls 2) ;;
       match split line2 with
       | [_; mjd_tdt; _] =>
           mjd <- lift (to_float float mjd_tdt) ;;
           assign (with_time (Some (mkTime mjd fmt_mjd scale_tt))) ;;
           ' (CoV_EXISTS, CoV) <-
             lift (_parse_Covariance_List float carEls) ;;
           assign (with_helio_ecl_cov_EXISTS CoV_EXISTS) ;;
           assign (with_helio_ecl_cov (Some CoV))
       | _ => raise ValueError_unpack
       end
   | _ => raise ValueError_unpack
   end)%method.

(** A text given by its lines, each ended by a newline. *)
Definition unlines (lines : list string) : string :=
  fold_right (fun l acc => (l ++ nl ++ acc)%string) EmptyString lines.

(** ** Fixtures: concrete collaborators and inputs for worked instances *)

(** An ephemeris that puts the barycenter one astronomical unit along the
    y axis of the heliocenter, at rest. *)
Definition ephemeris_fixture : R -> vec3 * vec3 :=
  fun _ => ((0, au_km, 0), (0, 0, 0)).

(** A conversion to TDB Julian dates that shifts a Modified Julian Date by
    2400000.5 and leaves the difference between the time scales out. *)
Definition tdb_jd_fixture (t : Time) : R :=
  match time_fmt t with
  | fmt_mjd => time_val t + 2400000.5
  | fmt_jd => time_val t
  end.

(** A formatter that writes every float as one fixed token. *)
Definition format_fixture (spec : string) (x : R) : string := "#".

(** A converter of strings to floats for worked instances: the decimals
    of the fixture file and unsigned integer literals. *)
Definition digit_value (c : ascii) : option Z :=
  let n := nat_of_ascii c in
  if ((48 <=? n) && (n <=? 57))%nat then Some (Z.of_nat (n - 48)) else None.

Fixpoint digits_value (s : string) (acc : Z) : option Z :=
  match s with
  | EmptyString => Some acc
  | String c s' =>
      match digit_value c with
      | Some d => digits_value s' (10 * acc + d)%Z
      | None => None
      end
  end.

Definition float_fixture (s : string) : option R :=
  if String.eqb s "1.0" then Some 1
  else if String.eqb s "2.0" then Some 2
  else if String.eqb s "3.0" then Some 3
  else if String.eqb s "0.1" then Some 0.1
  else if String.eqb s "0.2" then Some 0.2
  else if String.eqb s "0.3" then Some 0.3
  else if String.eqb s "58849.0" then Some 58849
  else match s with
       | EmptyString => None
       | _ => option_map IZR (digits_value s 0)
       end.

(** Seven lines with the covariance prefix, the first with two fields. *)
Definition malformed_covariance_lines : list string :=
  [" COV 1.0 2.0"; " COV 0.0 0.0 0.0"; " COV 0.0 0.0 0.0";
   " COV 0.0 0.0 0.0"; " COV 0.0 0.0 0.0"; " COV 0.0 0.0 0.0";
   " COV 0.0 0.0 0.0"].

(** Seven covariance rows with the entries 1 to 21, among other lines. *)
Definition covariance_lines_fixture : list string :=
  [" RMS 0 0 0"; " COV 1 2 3"; " COV 4 5 6"; " COV 7 8 9"; " COV 10 11 12";
   " NOR 0 0 0"; " COV 13 14 15"; " COV 16 17 18"; " COV 19 20 21"; nl].

Definition covariance_fixture : list (list R) :=
  [[1; 2; 3; 4; 5; 6];
   [2; 7; 8; 9; 10; 11];
   [3; 8; 12; 13; 14; 15];
   [4; 9; 13; 16; 17; 18];
   [5; 10; 14; 17; 19; 20];
   [6; 11; 15; 18; 20; 21]].

(** A file with two cartesian sections, the second being the fixture of
    the end-to-end test, and a file without any. *)
Definition first_section_fixture : list string :=
  [("format = OEF2.0" ++ nl)%string;
   cart_head;
   ("X 3.0 2.0 1.0 0.3 0.2 0.1" ++ nl)%string;
   ("X 1.0 X" ++ nl)%string].

Definition last_section_fixture : list string :=
  [("X 1.0 2.0 3.0 0.1 0.2 0.3" ++ nl)%string;
   ("X 58849.0 X" ++ nl)%string;
   (" COV 1 2 3" ++ nl)%string; (" COV 4 5 6" ++ nl)%string;
   (" COV 7 8 9" ++ nl)%string; (" COV 10 11 12" ++ nl)%string;
   (" COV 13 14 15" ++ nl)%string; (" COV 16 17 18" ++ nl)%string;
   (" COV 19 20 21" ++ nl)%string].

Definition readlines_fixture (name : string) : option (list string) :=
  if String.eqb name "two_sections.fel"
  then Some (first_section_fixture ++ cart_head :: last_section_fixture)
  else if String.eqb name "one_section.fel"
  then Some (cart_head :: last_section_fixture)
  else if String.eqb name "no_section.fel"
  then Some [("format = OEF2.0" ++ nl)%string]
  else None.

(** An object as the parser leaves it on the last section of the fixture
    file, and the same object after the transform step was given a
    barycentric-equatorial vector. *)
Definition parsed_fixture : ParseElements :=
  mkParseElements
    true (Some (Array1 [1; 2; 3; 0.1; 0.2; 0.3]))
    true (Some (Array2 covariance_fixture))
    false None false None
    (Some (mkTime 58849 fmt_mjd scale_tt)) None.

Definition transformed_fixture : ParseElements :=
  with_bary_eq_vec_EXISTS true
    (with_bary_eq_vec (Some (Array1 [1; 2; 3; 0.1; 0.2; 0.3]))
       parsed_fixture).

(** ** The superseded covariance parser *)

(** [_, a, b, c = line.split()] with plain variables as targets: nothing
    is converted. *)
Definition unpack_tokens (line : string) : outcome (list string) :=
  match split line with
  | [_; a; b; c] => Returned [a; b; c]
  | _ => Raised ValueError_unpack
  end.

Definition covErr_empty : string := " Empty covariance Matrix for ".

(** [_old_parse_Covariance_List]: the tuple returned, [covErr] first, then
    the 21 strings [c11], [c12], ..., [c66]. *)
Definition _old_parse_Covariance_List (Els : list string)
  : outcome (list string) :=
  let ElCov := filter is_cov_line Els in
  let covErr := EmptyString in
  (cs <-
     (if (length ElCov =? 7)%nat then
        l0 <- getitem ElCov 0 ;; r0 <- unpack_tokens l0 ;;
        l1 <- getitem ElCov 1 ;; r1 <- unpack_tokens l1 ;;
        l2 <- getitem ElCov 2 ;; r2 <- unpack_tokens l2 ;;
        l3 <- getitem ElCov 3 ;; r3 <- unpack_tokens l3 ;;
        l4 <- getitem ElCov 4 ;; r4 <- unpack_tokens l4 ;;
        l5 <- getitem ElCov 5 ;; r5 <- unpack_tokens l5 ;;
        l6 <- getitem ElCov 6 ;; r6 <- unpack_tokens l6 ;;
        Returned (r0 ++ r1 ++ r2 ++ r3 ++ r4 ++ r5 ++ r6)
      else Returned []) ;;
   if negb (length ElCov =? 7)%nat then
     Returned (covErr_empty :: repeat EmptyString 21)
   else Returned (covErr :: cs))%outcome.

(** ** Vocabulary of the further properties *)

(** The fields the parser never writes, and the fields the transform step
    never writes. *)
Definition bary_and_tstart (o : ParseElements)
  : bool * option ndarray * bool * option ndarray * option R :=
  (bary_eq_vec_EXISTS o, bary_eq_vec o, bary_eq_cov_EXISTS o, bary_eq_cov o,
   tstart o).

Definition helio_and_times (o : ParseElements)
  : bool * option ndarray * bool * option ndarray * option Time * option R :=
  (helio_ecl_vec_EXISTS o, helio_ecl_vec o, helio_ecl_cov_EXISTS o,
   helio_ecl_cov o, time o, tstart o).

(** The tokens of the covariance rows, without conversion. *)
Definition row_tokens (line : string) : option (list string) :=
  match split line with
  | [_; a; b; c] => Some [a; b; c]
  | _ => None
  end.

Fixpoint rows_tokens (lines : list string) : option (list string) :=
  match lines with
  | [] => Some []
  | l :: ls =>
      match row_tokens l, rows_tokens ls with
      | Some r, Some rs => Some (r ++ rs)
      | _, _ => None
      end
  end.

(** Files cut short: after the header, and after the vector line. *)
Definition truncated_files_fixture (name : string) : option (list string) :=
  if String.eqb name "header_only.fel" then Some [cart_head]
  else if String.eqb name "vector_only.fel"
  then Some [cart_head; ("X 1.0 2.0 3.0 0.1 0.2 0.3" ++ nl)%string]
  else None.

(** The five header lines of the output file, for a start time already
    formatted. *)
Definition output_header (tstart_text : string) : string :=
  unlines [("tstart " ++ tstart_text)%string; "tstep +20.0"; "trange 600.";
           "geocentric 0"; "state"].

(** The object as [_get_and_set_junk_data] leaves it, with the default
    [BaryEqDirect=False], just before it calls the transform step. *)
Definition junk_object : ParseElements :=
  mkParseElements
    true (Some (Array1 [3; 2; 1; 0.3; 0.2; 0.1]))
    true (Some (Array2 (map (map (Rmult 0.01)) (ones 6 6))))
    false None false None
    (Some (mkTime 2458849.5 fmt_jd scale_tdb)) None.

(** [a] is the beginning of [b]. *)
Definition starts_with (a b : string) : Prop :=
  exists rest, b = (a ++ rest)%string.

(** ** The arithmetic of the transforms in binary64

    The products and sums of [ecliptic_to_equatorial] and of
    [equatorial_helio2bary] as IEEE 754 binary64 operations, each rounded,
    none fused.  Every sum of products below has at most two products that
    are not zero, so that the order in which a matrix product accumulates
    them does not change the result. *)
























(** * Properties *)

(** ** The string operations on sample lines *)

Example split_vector_line :
  split ("X 1.0 2.0  3.0 0.1 0.2 0.3" ++ nl)
  = ["X"; "1.0"; "2.0"; "3.0"; "0.1"; "0.2"; "0.3"].
Proof. reflexivity. Qed.

Example split_blank_line : split ("   " ++ nl) = [].
Proof. reflexivity. Qed.

Example cov_prefix_sample :
  is_cov_line " COV 1 2 3" = true
  /\ is_cov_line "COV 1 2 3" = false
  /\ is_cov_line " CO" = false.
Proof. repeat split. Qed.

Example last_header_sample :
  index cart_head (rev [cart_head; "a"; cart_head; "b"]) = Some 1%nat
  /\ slice [cart_head; "a"; cart_head; "b"] 2 (2 + 25) = [cart_head; "b"].
Proof. split; reflexivity. Qed.

(** ** Rotation *)

Lemma matvec_length m v : length (matvec m v) = length m.
Proof. unfold matvec. apply length_map. Qed.

Lemma shape_eqb_refl s : shape_eqb s s = true.
Proof.
  induction s as [|a s IH]; simpl; [reflexivity|].
  now rewrite Nat.eqb_refl, IH.
Qed.

Lemma shape_eqb_eq s1 s2 : shape_eqb s1 s2 = true <-> s1 = s2.
Proof.
  split; [|intros ->; apply shape_eqb_refl].
  revert s2; induction s1 as [|a s1 IH]; intros [|b s2]; simpl;
    try discriminate; [reflexivity|].
  intros H. apply andb_prop in H as [Hab Hs].
  apply Nat.eqb_eq in Hab. apply IH in Hs. now subst.
Qed.

Lemma ecliptic_to_equatorial_vec3 v backwards :
  length v = 3%nat ->
  ecliptic_to_equatorial (Array1 v) backwards
  = Returned (Array1 (matvec (rot3 backwards) v)).
Proof.
  intros Hv. unfold ecliptic_to_equatorial. cbn [atleast_1d ndim shape nth].
  rewrite Hv. cbn [Nat.eqb mem existsb andb orb data1 obind shape].
  now rewrite matvec_length.
Qed.

Lemma ecliptic_to_equatorial_vec6 v backwards :
  length v = 6%nat ->
  ecliptic_to_equatorial (Array1 v) backwards
  = Returned (Array1 (matvec (rot6 backwards) v)).
Proof.
  intros Hv. unfold ecliptic_to_equatorial. cbn [atleast_1d ndim shape nth].
  rewrite Hv. cbn [Nat.eqb mem existsb andb orb data1 obind shape].
  now rewrite matvec_length.
Qed.

Lemma ecliptic_to_equatorial_mat66 m backwards :
  shape (Array2 m) = [6; 6]%nat ->
  ecliptic_to_equatorial (Array2 m) backwards
  = Returned
      (Array2 (matmul (matmul (rot6 backwards) m) (transpose (rot6 backwards)))).
Proof.
  intros Hm. unfold ecliptic_to_equatorial. cbn [atleast_1d ndim].
  rewrite Hm. cbn [Nat.eqb andb shape_eqb data2 obind].
  reflexivity.
Qed.

Lemma ecliptic_to_equatorial_rejects input backwards :
  ~ accepted_shape input ->
  ecliptic_to_equatorial input backwards = Exited.
Proof.
  intros Hno. unfold ecliptic_to_equatorial.
  destruct input as [x | v | m | d0 d1 d2 ds]; cbn [atleast_1d ndim shape nth].
  - reflexivity.
  - destruct (mem (length v) [3; 6]%nat) eqn:Hmem; [|reflexivity].
    exfalso. apply Hno. left. split; [reflexivity|]. cbn [shape].
    unfold mem in Hmem. cbn [existsb] in Hmem.
    rewrite orb_false_r in Hmem. apply orb_prop in Hmem as [H | H];
      apply Nat.eqb_eq in H; rewrite H; auto.
  - cbn [Nat.eqb andb].
    destruct (shape_eqb [length m; ncols m] [6; 6]%nat) eqn:Hs; [|reflexivity].
    exfalso. apply Hno. right. split; [reflexivity|].
    now apply shape_eqb_eq in Hs.
  - reflexivity.
Qed.

Lemma ecliptic_to_equatorial_accepts input backwards :
  accepted_shape input ->
  exists output,
    ecliptic_to_equatorial input backwards = Returned output
    /\ shape output = shape input.
Proof.
  intros [[Hd [Hs | Hs]] | [Hd Hs]];
    destruct input as [x | v | m | d0 d1 d2 ds]; try discriminate.
  - injection Hs as Hv. eexists. split.
    + now apply ecliptic_to_equatorial_vec3.
    + cbn [shape]. rewrite matvec_length, Hv. reflexivity.
  - injection Hs as Hv. eexists. split.
    + now apply ecliptic_to_equatorial_vec6.
    + cbn [shape]. rewrite matvec_length, Hv. reflexivity.
  - eexists. split.
    + now apply ecliptic_to_equatorial_mat66.
    + now rewrite Hs.
Qed.

(** C8: an input of the rotation that is neither a 1-D array of length 3
    or 6 nor a 2-D array of shape 6x6 makes the call exit the interpreter
    (no value and no exception comes back); an input of an accepted shape
    never reaches that branch, and the output returned has the shape of the
    input. *)
Theorem ecliptic_to_equatorial_shape_contract :
  forall (input : ndarray) (backwards : bool),
    (~ accepted_shape input ->
     ecliptic_to_equatorial input backwards = Exited)
    /\ (accepted_shape input ->
        exists output,
          ecliptic_to_equatorial input backwards = Returned output
          /\ shape output = shape input).
Proof.
  intros input backwards. split.
  - apply ecliptic_to_equatorial_rejects.
  - apply ecliptic_to_equatorial_accepts.
Qed.

(** A list of known length, taken apart. *)
Ltac explode_list l H :=
  repeat (destruct l as [|? l]; [discriminate H|]);
  destruct l; [clear H | discriminate H].

Lemma rows_of_length_6 (C : list (list R)) :
  length C = 6%nat -> Forall (fun row => length row = 6%nat) C ->
  exists c00 c01 c02 c03 c04 c05 c10 c11 c12 c13 c14 c15
         c20 c21 c22 c23 c24 c25 c30 c31 c32 c33 c34 c35
         c40 c41 c42 c43 c44 c45 c50 c51 c52 c53 c54 c55,
    C = [[c00; c01; c02; c03; c04; c05]; [c10; c11; c12; c13; c14; c15];
         [c20; c21; c22; c23; c24; c25]; [c30; c31; c32; c33; c34; c35];
         [c40; c41; c42; c43; c44; c45]; [c50; c51; c52; c53; c54; c55]].
Proof.
  intros HC Hrows. explode_list C HC.
  repeat match goal with
         | H : Forall _ (_ :: _) |- _ => inversion H; subst; clear H
         | H : Forall _ [] |- _ => clear H
         end.
  repeat match goal with
         | H : length ?r = 6%nat |- _ => explode_list r H
         end.
  repeat eexists.
Qed.

Lemma lt_6_cases (i : nat) :
  (i < 6)%nat ->
  i = 0%nat \/ i = 1%nat \/ i = 2%nat \/ i = 3%nat \/ i = 4%nat \/ i = 5%nat.
Proof. lia. Qed.


(** ** Translation *)

Section Translation.

Variable compute_and_differentiate : R -> vec3 * vec3.


Lemma helio2bary_vec3 v t backwards :
  length v = 3%nat ->
  equatorial_helio2bary compute_and_differentiate (Array1 v) t backwards
  = Returned
      (Array1
         (vadd v (map (fun d => d * direction_of backwards / au_km)
                      (array3 (fst (compute_and_differentiate t)))))).
Proof.
  intros Hv. unfold equatorial_helio2bary.
  cbn [atleast_1d ndim shape nth]. rewrite Hv.
  cbn [Nat.eqb negb mem existsb orb data1].
  now destruct (compute_and_differentiate t) as [delta delta_vel].
Qed.

Lemma helio2bary_vec6 v t backwards :
  length v = 6%nat ->
  equatorial_helio2bary compute_and_differentiate (Array1 v) t backwards
  = Returned
      (Array1
         (vadd v (map (fun d => d * direction_of backwards / au_km)
                      (array3 (fst (compute_and_differentiate t))
                       ++ array3 (snd (compute_and_differentiate t)))))).
Proof.
  intros Hv. unfold equatorial_helio2bary.
  cbn [atleast_1d ndim shape nth]. rewrite Hv.
  cbn [Nat.eqb negb mem existsb orb data1].
  now destruct (compute_and_differentiate t) as [delta delta_vel].
Qed.

Lemma helio2bary_components v t backwards :
  length v = 3%nat \/ length v = 6%nat ->
  exists w,
    equatorial_helio2bary compute_and_differentiate (Array1 v) t backwards = Returned (Array1 w)
    /\ length w = length v
    /\ forall i, (i < length v)%nat ->
         nth i w 0
         = if backwards
           then nth i v 0 - displacement_au compute_and_differentiate t i
           else nth i v 0 + displacement_au compute_and_differentiate t i.
Proof.
  intros [Hv | Hv].
  - rewrite (helio2bary_vec3 v t backwards Hv). eexists.
    split; [reflexivity|].
    unfold displacement_au.
    destruct (compute_and_differentiate t) as [[[p q] r] [[p' q'] r']].
    explode_list v Hv. cbn [fst snd array3 map vadd length app].
    split; [reflexivity|]. intros i Hi.
    destruct i as [|[|[|i]]]; [| | |exfalso; lia];
      destruct backwards; cbn [nth direction_of]; unfold Rdiv; ring.
  - rewrite (helio2bary_vec6 v t backwards Hv). eexists.
    split; [reflexivity|].
    unfold displacement_au.
    destruct (compute_and_differentiate t) as [[[p q] r] [[p' q'] r']].
    explode_list v Hv. cbn [fst snd array3 map vadd length app].
    split; [reflexivity|]. intros i Hi.
    destruct i as [|[|[|[|[|[|i]]]]]]; [| | | | | |exfalso; lia];
      destruct backwards; cbn [nth direction_of]; unfold Rdiv; ring.
Qed.

End Translation.

(** ** Round trips *)

Lemma rot3_entries backwards :
  rot3 backwards
  = [[1; 0; 0];
     [0; cos Constants_ecl;
      if backwards then sin Constants_ecl else - sin Constants_ecl];
     [0; if backwards then - sin Constants_ecl else sin Constants_ecl;
      cos Constants_ecl]].
Proof.
  unfold rot3, rotate_matrix, direction_of. destruct backwards.
  - replace (Constants_ecl * -1) with (- Constants_ecl) by ring.
    now rewrite cos_neg, Ropp_involutive.
  - replace (Constants_ecl * 1) with Constants_ecl by ring.
    now rewrite sin_neg, Ropp_involutive.
Qed.

Lemma sin_cos_unit x : sin x * sin x + cos x * cos x = 1.
Proof. exact (sin2_cos2 x). Qed.


Lemma rot3_inverse v backwards :
  length v = 3%nat ->
  matvec (rot3 (negb backwards)) (matvec (rot3 backwards) v) = v.
Proof.
  intros Hv. explode_list v Hv. rewrite !rot3_entries.
  pose proof (sin_cos_unit Constants_ecl) as Hu.
  set (c := cos Constants_ecl) in *. set (s := sin Constants_ecl) in *.
  destruct backwards;
    cbv [negb matvec map dot];
    repeat (apply (f_equal2 (@cons R));
            [first
               [ ring
               | match goal with
                 | |- _ = ?x =>
                     transitivity (x * (s * s + c * c));
                     [ring | rewrite Hu; ring]
                 end ]|]);
    reflexivity.
Qed.



Section RoundTrip.

Variable compute_and_differentiate : R -> vec3 * vec3.




End RoundTrip.







Lemma accepted_shape_dec input : accepted_shape input \/ ~ accepted_shape input.
Proof.
  unfold accepted_shape.
  destruct (Nat.eq_dec (ndim input) 1) as [H1 | H1];
    destruct (list_eq_dec Nat.eq_dec (shape input) [3%nat]) as [H3 | H3];
    destruct (list_eq_dec Nat.eq_dec (shape input) [6%nat]) as [H6 | H6];
    destruct (Nat.eq_dec (ndim input) 2) as [H2 | H2];
    destruct (list_eq_dec Nat.eq_dec (shape input) [6; 6]%nat) as [H66 | H66];
    try (left; tauto); right; tauto.
Qed.

(** ** The transform step *)

Ltac run_method :=
  cbv beta iota delta
    [mbind mret lift raise get_self assign self_time_tdb_jd
     with_bary_eq_vec with_bary_eq_vec_EXISTS with_bary_eq_cov
     with_bary_eq_cov_EXISTS with_helio_ecl_vec with_helio_ecl_vec_EXISTS
     with_helio_ecl_cov with_helio_ecl_cov_EXISTS with_time with_tstart
     helio_ecl_vec_EXISTS helio_ecl_vec helio_ecl_cov_EXISTS helio_ecl_cov
     bary_eq_vec_EXISTS bary_eq_vec bary_eq_cov_EXISTS bary_eq_cov time tstart
     fst snd negb andb].

Section Transform.

Variable compute_and_differentiate : R -> vec3 * vec3.
Variable tdb_jd : Time -> R.

Lemma make_bary_equatorial_nothing self :
  helio_ecl_vec_EXISTS self = false ->
  helio_ecl_cov_EXISTS self = false ->
  make_bary_equatorial compute_and_differentiate tdb_jd self
  = (self, Raised TypeError_nothing_to_transform).
Proof.
  destruct self as [ve v ce c bve bv bce bc t ts]. cbn. intros -> ->.
  reflexivity.
Qed.

Lemma ecliptic_to_equatorial_value_never_raises input backwards e :
  ecliptic_to_equatorial_value input backwards <> Raised e.
Proof.
  destruct input as [a|]; [|discriminate]. cbn [ecliptic_to_equatorial_value].
  destruct (accepted_shape_dec a) as [Ha | Ha].
  - destruct (ecliptic_to_equatorial_accepts a backwards Ha) as (o & -> & _).
    discriminate.
  - rewrite (ecliptic_to_equatorial_rejects a backwards Ha). discriminate.
Qed.

Lemma equatorial_helio2bary_raises input t backwards e :
  equatorial_helio2bary compute_and_differentiate input t backwards
  = Raised e ->
  e = AssertionError.
Proof.
  unfold equatorial_helio2bary.
  destruct (negb (ndim (atleast_1d input) =? 1)%nat);
    [intros H; now injection H|].
  destruct (negb (mem (nth 0 (shape (atleast_1d input)) 0%nat) [3; 6]%nat));
    [intros H; now injection H|].
  destruct (compute_and_differentiate t). discriminate.
Qed.

Lemma make_bary_equatorial_raises self :
  snd (make_bary_equatorial compute_and_differentiate tdb_jd self)
  = Raised TypeError_nothing_to_transform ->
  helio_ecl_vec_EXISTS self = false /\ helio_ecl_cov_EXISTS self = false.
Proof.
  destruct self as [ve v ce c bve bv bce bc t ts].
  unfold make_bary_equatorial. run_method.
  pose proof (ecliptic_to_equatorial_value_never_raises v false) as Hv.
  pose proof (ecliptic_to_equatorial_value_never_raises c false) as Hc.
  destruct ve.
  - destruct (ecliptic_to_equatorial_value v false) as [rv | e | ];
      [|now destruct (Hv e)|discriminate].
    destruct t as [t|]; [|discriminate].
    pose proof (equatorial_helio2bary_raises rv (tdb_jd t) false) as Hw.
    destruct (equatorial_helio2bary _ rv (tdb_jd t) false) as [w | e | ];
      [|rewrite (Hw e eq_refl); discriminate|discriminate].
    destruct ce; [|discriminate].
    destruct (ecliptic_to_equatorial_value c false) as [rc | e | ];
      [discriminate|now destruct (Hc e)|discriminate].
  - destruct ce; [|auto].
    destruct (ecliptic_to_equatorial_value c false) as [rc | e | ];
      [discriminate|now destruct (Hc e)|discriminate].
Qed.

Lemma rotate_then_translate v t :
  length v = 3%nat \/ length v = 6%nat ->
  exists rv w,
    ecliptic_to_equatorial (Array1 v) false = Returned (Array1 rv)
    /\ length rv = length v
    /\ equatorial_helio2bary compute_and_differentiate (Array1 rv) t false
       = Returned (Array1 w)
    /\ length w = length v
    /\ forall i, (i < length v)%nat ->
         nth i w 0
         = nth i rv 0 + displacement_au compute_and_differentiate t i.
Proof.
  intros Hv.
  assert (exists rv, ecliptic_to_equatorial (Array1 v) false
                     = Returned (Array1 rv) /\ length rv = length v)
    as (rv & Hrv & Hlen).
  { destruct Hv as [Hv | Hv].
    - eexists. split; [now apply ecliptic_to_equatorial_vec3|].
      now rewrite matvec_length, Hv.
    - eexists. split; [now apply ecliptic_to_equatorial_vec6|].
      now rewrite matvec_length, Hv. }
  destruct (helio2bary_components compute_and_differentiate rv t false)
    as (w & Hw & Hwl & Hwi); [now rewrite Hlen|].
  exists rv, w. rewrite <- Hlen. auto.
Qed.

(** The vector branch of the transform step, whatever the covariance
    branch does after it. *)
Lemma make_bary_equatorial_vector self v t0 rv w :
  helio_ecl_vec_EXISTS self = true ->
  helio_ecl_vec self = Some (Array1 v) ->
  time self = Some t0 ->
  ecliptic_to_equatorial (Array1 v) false = Returned rv ->
  equatorial_helio2bary compute_and_differentiate rv (tdb_jd t0) false
  = Returned w ->
  let self' :=
    fst (make_bary_equatorial compute_and_differentiate tdb_jd self) in
  bary_eq_vec self' = Some w /\ bary_eq_vec_EXISTS self' = true.
Proof.
  destruct self as [ve v' ce c bve bv bce bc t ts]. cbn.
  intros -> -> -> Hrv Hw.
  unfold make_bary_equatorial. run_method.
  cbn [ecliptic_to_equatorial_value]. rewrite Hrv, Hw.
  destruct ce; [|now cbn].
  destruct (ecliptic_to_equatorial_value c false); now cbn.
Qed.

(** C7: the transform step fills the barycentric-equatorial vector and
    its flag when the heliocentric-ecliptic vector is flagged present and
    leaves them alone otherwise; it fills the barycentric-equatorial
    covariance, by the rotation alone, and its flag when the
    heliocentric-ecliptic covariance is flagged present and leaves them
    alone otherwise; it raises the nothing-to-transform error if and only
    if neither is flagged present, and then the object is unchanged;
    in every other case it returns True. *)
Theorem make_bary_equatorial_contract :
  forall self : ParseElements,
    let self' :=
      fst (make_bary_equatorial compute_and_differentiate tdb_jd self) in
    let r :=
      snd (make_bary_equatorial compute_and_differentiate tdb_jd self) in
    (r = Raised TypeError_nothing_to_transform
     <-> helio_ecl_vec_EXISTS self = false
         /\ helio_ecl_cov_EXISTS self = false)
    /\ (r = Raised TypeError_nothing_to_transform -> self' = self)
    /\ (transformable self ->
        (helio_ecl_vec_EXISTS self = true ->
         bary_eq_vec_EXISTS self' = true
         /\ exists v t rv w,
             helio_ecl_vec self = Some v /\ time self = Some t
             /\ ecliptic_to_equatorial v false = Returned rv
             /\ equatorial_helio2bary compute_and_differentiate
                  rv (tdb_jd t) false = Returned w
             /\ bary_eq_vec self' = Some w)
        /\ (helio_ecl_vec_EXISTS self = false ->
            bary_eq_vec_EXISTS self' = bary_eq_vec_EXISTS self
            /\ bary_eq_vec self' = bary_eq_vec self)
        /\ (helio_ecl_cov_EXISTS self = true ->
            bary_eq_cov_EXISTS self' = true
            /\ exists c rc,
                helio_ecl_cov self = Some c
                /\ ecliptic_to_equatorial c false = Returned rc
                /\ bary_eq_cov self' = Some rc)
        /\ (helio_ecl_cov_EXISTS self = false ->
            bary_eq_cov_EXISTS self' = bary_eq_cov_EXISTS self
            /\ bary_eq_cov self' = bary_eq_cov self)
        /\ (helio_ecl_vec_EXISTS self = true
            \/ helio_ecl_cov_EXISTS self = true ->
            r = Returned true)).
Proof.
  intros self self' r. split; [split|split].
  - apply make_bary_equatorial_raises.
  - intros [Hv Hc]. unfold r.
    now rewrite (make_bary_equatorial_nothing self Hv Hc).
  - intros Hr. destruct (make_bary_equatorial_raises self Hr) as [Hv Hc].
    unfold self'. now rewrite (make_bary_equatorial_nothing self Hv Hc).
  - intros [Hvec Hcov]. subst self' r.
    destruct self as [ve v ce c bve bv bce bc t ts].
    cbn [helio_ecl_vec_EXISTS helio_ecl_vec helio_ecl_cov_EXISTS
         helio_ecl_cov time bary_eq_vec bary_eq_vec_EXISTS bary_eq_cov
         bary_eq_cov_EXISTS] in *.
    assert (Hcov' : ce = true ->
              exists c0 rc, c = Some c0
                /\ ecliptic_to_equatorial c0 false = Returned rc).
    { intros Hce. destruct (Hcov Hce) as (m & -> & Hm).
      exists (Array2 m). eexists. split; [reflexivity|].
      now apply ecliptic_to_equatorial_mat66. }
    assert (Hvec' : ve = true ->
              exists v0 t0 rv w, v = Some v0 /\ t = Some t0
                /\ ecliptic_to_equatorial v0 false = Returned rv
                /\ equatorial_helio2bary compute_and_differentiate
                     rv (tdb_jd t0) false = Returned w).
    { intros Hve. destruct (Hvec Hve) as (v0 & t0 & -> & Hlen & ->).
      destruct (rotate_then_translate v0 (tdb_jd t0) Hlen)
        as (rv & w & Hrv & _ & Hw & _).
      exists (Array1 v0), t0, (Array1 rv), (Array1 w). auto. }
    clear Hvec Hcov. unfold make_bary_equatorial. run_method.
    destruct ve, ce.
    + destruct (Hvec' eq_refl) as (v0 & t0 & rv & w & -> & -> & Hrv & Hw).
      destruct (Hcov' eq_refl) as (c0 & rc & -> & Hrc).
      cbn [ecliptic_to_equatorial_value].
      rewrite Hrv; run_method; rewrite Hw; run_method.
      cbn [ecliptic_to_equatorial_value]. rewrite Hrc; run_method.
      repeat split; try discriminate; eauto 10.
    + destruct (Hvec' eq_refl) as (v0 & t0 & rv & w & -> & -> & Hrv & Hw).
      cbn [ecliptic_to_equatorial_value].
      rewrite Hrv; run_method; rewrite Hw; run_method.
      repeat split; try discriminate; eauto 10.
    + destruct (Hcov' eq_refl) as (c0 & rc & -> & Hrc).
      cbn [ecliptic_to_equatorial_value]. rewrite Hrc; run_method.
      repeat split; try discriminate; eauto 10.
    + repeat split; try discriminate. intros [H | H]; discriminate.
Qed.

(** C1: on a 3- or 6-vector [v] at epoch [t] the translation returns
    [v] plus the ephemeris displacement divided by [au_km] (with the
    rates in the last three places of a 6-vector), or [v] minus it when
    backwards is set; and the vector the transform step stores is the
    rotated parsed vector plus that displacement at the epoch's TDB
    Julian date: the rotation first, the translation second. *)
Theorem helio2bary_adds_displacement :
  (forall (v : list R) (t : R) (backwards : bool),
      length v = 3%nat \/ length v = 6%nat ->
      exists w,
        equatorial_helio2bary compute_and_differentiate (Array1 v) t
          backwards = Returned (Array1 w)
        /\ length w = length v
        /\ forall i, (i < length v)%nat ->
             nth i w 0
             = if backwards
               then nth i v 0
                    - displacement_au compute_and_differentiate t i
               else nth i v 0
                    + displacement_au compute_and_differentiate t i)
  /\ (forall (self : ParseElements) (v : list R) (t0 : Time),
        helio_ecl_vec_EXISTS self = true ->
        helio_ecl_vec self = Some (Array1 v) ->
        length v = 3%nat \/ length v = 6%nat ->
        time self = Some t0 ->
        exists rv w,
          ecliptic_to_equatorial (Array1 v) false = Returned (Array1 rv)
          /\ bary_eq_vec
               (fst (make_bary_equatorial compute_and_differentiate
                       tdb_jd self))
             = Some (Array1 w)
          /\ length w = length v
          /\ forall i, (i < length v)%nat ->
               nth i w 0
               = nth i rv 0
                 + displacement_au compute_and_differentiate
                     (tdb_jd t0) i).
Proof.
  split.
  - intros v t backwards Hv.
    exact (helio2bary_components compute_and_differentiate v t backwards Hv).
  - intros self v t0 Hex Hvec Hv Ht.
    destruct (rotate_then_translate v (tdb_jd t0) Hv)
      as (rv & w & Hrv & Hlen & Hw & Hwl & Hwi).
    exists rv, w. split; [exact Hrv|]. split; [|split; assumption].
    exact (proj1 (make_bary_equatorial_vector self v t0 (Array1 rv)
                    (Array1 w) Hex Hvec Ht Hrv Hw)).
Qed.

End Transform.

(** ** The covariance parser *)

Section CovarianceParser.

Variable float : string -> option R.

Lemma unpack_row_parsed CoV line a b c x y z :
  parsed_row float line = Some [x; y; z] ->
  unpack_row float CoV line a b c
  = Returned
      (setitem
         (setitem (setitem CoV (fst a) (snd a) x) (fst b) (snd b) y)
         (fst c) (snd c) z).
Proof.
  unfold parsed_row, unpack_row, to_float.
  destruct (split line) as [|t0 [|sa [|sb [|sc [|t4 ts]]]]];
    try discriminate.
  destruct (float sa), (float sb), (float sc); try discriminate.
  intros H. injection H as -> -> ->. reflexivity.
Qed.

Lemma parsed_row_shape line r :
  parsed_row float line = Some r ->
  length (split line) = 4%nat /\ exists x y z, r = [x; y; z].
Proof.
  unfold parsed_row.
  destruct (split line) as [|t0 [|sa [|sb [|sc [|t4 ts]]]]];
    try discriminate.
  destruct (float sa), (float sb), (float sc); try discriminate.
  intros H. injection H as <-. split; [reflexivity|]. eauto.
Qed.

Lemma unpack_row_unparsed CoV line a b c :
  parsed_row float line = None ->
  (length (split line) <> 4%nat
   /\ unpack_row float CoV line a b c = Raised ValueError_unpack)
  \/ (length (split line) = 4%nat
      /\ unpack_row float CoV line a b c = Raised ValueError_float).
Proof.
  unfold parsed_row, unpack_row, to_float.
  destruct (split line) as [|t0 [|sa [|sb [|sc [|t4 ts]]]]];
    try (intros _; left; split; [cbn [length]; lia | reflexivity]).
  destruct (float sa), (float sb), (float sc); try discriminate;
    intros _; right; split; reflexivity.
Qed.

Lemma parse_Covariance_List_absent Els :
  length (filter is_cov_line Els) <> 7%nat ->
  _parse_Covariance_List float Els = Returned (false, Array2 (zeros 6 6)).
Proof.
  intros H. unfold _parse_Covariance_List.
  apply Nat.eqb_neq in H. now rewrite H.
Qed.

Lemma parsed_entries_cons l ls xs :
  parsed_entries float (l :: ls) = Some xs ->
  exists x y z rs,
    parsed_row float l = Some [x; y; z]
    /\ parsed_entries float ls = Some rs
    /\ xs = x :: y :: z :: rs.
Proof.
  cbn [parsed_entries].
  destruct (parsed_row float l) as [r|] eqn:Hr; [|discriminate].
  destruct (parsed_entries float ls) as [rs|]; [|discriminate].
  intros H. injection H as <-.
  destruct (parsed_row_shape l r Hr) as (_ & x & y & z & ->).
  exists x, y, z, rs. auto.
Qed.

Lemma parse_Covariance_List_present Els xs :
  length (filter is_cov_line Els) = 7%nat ->
  parsed_entries float (filter is_cov_line Els) = Some xs ->
  _parse_Covariance_List float Els
  = Returned (true, Array2 (upper_mirrored xs)).
Proof.
  intros Hlen Hxs. unfold _parse_Covariance_List. rewrite Hlen.
  cbn [Nat.eqb]. remember (filter is_cov_line Els) as ElCov eqn:E.
  clear E. explode_list ElCov Hlen.
  repeat match goal with
         | H : parsed_entries float (_ :: _) = Some _ |- _ =>
             apply parsed_entries_cons in H;
             destruct H as (? & ? & ? & ? & ? & H & ->)
         end.
  cbn [parsed_entries] in Hxs. injection Hxs as <-.
  cbn [getitem nth_error obind].
  repeat match goal with
         | H : parsed_row float _ = Some _ |- _ =>
             rewrite (unpack_row_parsed _ _ _ _ _ _ _ _ H);
             cbn [obind]; clear H
         end.
  reflexivity.
Qed.

Lemma parse_Covariance_List_unparsed Els :
  length (filter is_cov_line Els) = 7%nat ->
  parsed_entries float (filter is_cov_line Els) = None ->
  exists e,
    _parse_Covariance_List float Els = Raised e
    /\ (e = ValueError_unpack \/ e = ValueError_float).
Proof.
  intros Hlen Hnone. unfold _parse_Covariance_List. rewrite Hlen.
  cbn [Nat.eqb]. remember (filter is_cov_line Els) as ElCov eqn:E.
  clear E. explode_list ElCov Hlen.
  cbn [getitem nth_error obind]. cbn [parsed_entries] in Hnone.
  repeat match goal with
         | |- context [unpack_row float ?C ?l ?a ?b ?c] =>
             let H := fresh "Hrow" in
             destruct (parsed_row float l) as [r|] eqn:H;
             [ destruct (parsed_row_shape l r H) as (_ & ? & ? & ? & ->);
               rewrite (unpack_row_parsed C l a b c _ _ _ H);
               cbn [obind]
             | destruct (unpack_row_unparsed C l a b c H)
                 as [[_ ->] | [_ ->]];
               cbn [obind]; eauto ]
         end.
  discriminate Hnone.
Qed.

Lemma parsed_entries_tokens lines xs l :
  parsed_entries float lines = Some xs ->
  In l lines -> length (split l) = 4%nat.
Proof.
  revert xs; induction lines as [|l0 ls IH]; intros xs Hxs Hin;
    [destruct Hin|].
  apply parsed_entries_cons in Hxs as (x & y & z & rs & Hrow & Hrs & _).
  destruct Hin as [<- | Hin].
  - exact (proj1 (parsed_row_shape l0 _ Hrow)).
  - exact (IH rs Hrs Hin).
Qed.

Lemma parsed_entries_length lines xs :
  parsed_entries float lines = Some xs ->
  length xs = (3 * length lines)%nat.
Proof.
  revert xs; induction lines as [|l0 ls IH]; intros xs Hxs.
  - cbn in Hxs. now injection Hxs as <-.
  - apply parsed_entries_cons in Hxs as (x & y & z & rs & _ & Hrs & ->).
    cbn [length]. rewrite (IH rs Hrs). lia.
Qed.

Lemma upper_mirrored_entries xs i j :
  (i <= j)%nat -> (j < 6)%nat ->
  entry (upper_mirrored xs) i j = nth (upper_index i j) xs 0
  /\ entry (upper_mirrored xs) j i = entry (upper_mirrored xs) i j.
Proof.
  intros Hij Hj. assert (Hi : (i < 6)%nat) by lia.
  destruct (lt_6_cases i Hi) as [-> | [-> | [-> | [-> | [-> | ->]]]]];
    destruct (lt_6_cases j Hj) as [-> | [-> | [-> | [-> | [-> | ->]]]]];
    try (exfalso; lia); split; reflexivity.
Qed.


Lemma zeros_entries i j : entry (zeros 6 6) i j = 0.
Proof.
  unfold entry, zeros. cbn [repeat].
  do 6 (destruct i as [|i];
        [do 6 (destruct j as [|j]; [reflexivity|]); now destruct j|]).
  now destruct i, j.
Qed.

(** C3: when the lines with the covariance prefix are not exactly seven,
    the parser returns the all-zero 6x6 matrix and a false flag; when
    they are exactly seven rows of three numeric fields, it returns a
    true flag and the 6x6 matrix whose upper triangle holds the 21 parsed
    entries in row-major order, the lower triangle mirrored. *)
Theorem parse_Covariance_List_contract :
  forall Els : list string,
    (length (filter is_cov_line Els) <> 7%nat ->
     _parse_Covariance_List float Els = Returned (false, Array2 (zeros 6 6))
     /\ shape (Array2 (zeros 6 6)) = [6; 6]%nat
     /\ forall i j, entry (zeros 6 6) i j = 0)
    /\ (length (filter is_cov_line Els) = 7%nat ->
        forall xs,
          parsed_entries float (filter is_cov_line Els) = Some xs ->
          _parse_Covariance_List float Els
          = Returned (true, Array2 (upper_mirrored xs))
          /\ length xs = 21%nat
          /\ shape (Array2 (upper_mirrored xs)) = [6; 6]%nat
          /\ forall i j, (i <= j)%nat -> (j < 6)%nat ->
               entry (upper_mirrored xs) i j = nth (upper_index i j) xs 0
               /\ entry (upper_mirrored xs) j i
                  = entry (upper_mirrored xs) i j).
Proof.
  intros Els. split.
  - intros H. split; [now apply parse_Covariance_List_absent|].
    split; [reflexivity | apply zeros_entries].
  - intros H xs Hxs. split; [now apply parse_Covariance_List_present|].
    split; [rewrite (parsed_entries_length _ _ Hxs), H; reflexivity|].
    split; [reflexivity | apply upper_mirrored_entries].
Qed.

(** C10: seven lines with the covariance prefix of which one does not
    split into four tokens make the parser raise (an unpacking error, or
    a conversion error on an earlier row) where a wrong number of lines
    would have given the zero matrix and a false flag; such input
    exists. *)
Theorem parse_Covariance_List_malformed_row_raises :
  (forall Els : list string,
      length (filter is_cov_line Els) = 7%nat ->
      (exists l, In l (filter is_cov_line Els)
                 /\ length (split l) <> 4%nat) ->
      exists e,
        _parse_Covariance_List float Els = Raised e
        /\ (e = ValueError_unpack \/ e = ValueError_float))
  /\ (exists Els : list string,
        length (filter is_cov_line Els) = 7%nat
        /\ (exists l, In l (filter is_cov_line Els)
                      /\ length (split l) <> 4%nat)
        /\ _parse_Covariance_List float Els = Raised ValueError_unpack).
Proof.
  split.
  - intros Els Hlen (l & Hin & Hl).
    apply parse_Covariance_List_unparsed; [exact Hlen|].
    destruct (parsed_entries float (filter is_cov_line Els)) as [xs|] eqn:E;
      [|reflexivity].
    exfalso. apply Hl. exact (parsed_entries_tokens _ xs l E Hin).
  - exists malformed_covariance_lines. split; [reflexivity|]. split.
    + exists " COV 1.0 2.0". split; [left; reflexivity|].
      vm_compute. discriminate.
    + reflexivity.
Qed.

End CovarianceParser.

(** ** Symmetry of the covariance *)





(** ** The file parser *)

Lemma count_app x l1 l2 : count x (l1 ++ l2) = (count x l1 + count x l2)%nat.
Proof.
  induction l1 as [|y l1 IH]; cbn [count app]; [reflexivity|].
  rewrite IH. lia.
Qed.

Lemma count_absent x l : ~ In x l <-> count x l = 0%nat.
Proof.
  induction l as [|y l IH]; cbn [count In]; [tauto|].
  destruct (String.eqb_spec y x) as [-> | Hne].
  - split; [intros H; exfalso; auto | lia].
  - rewrite Nat.add_0_l, <- IH. tauto.
Qed.

Lemma index_first x l1 l2 :
  ~ In x l1 -> index x (l1 ++ x :: l2) = Some (length l1).
Proof.
  induction l1 as [|y l1 IH]; cbn [index app length In]; intros Hno.
  - now rewrite String.eqb_refl.
  - destruct (String.eqb_spec y x) as [-> | Hne]; [exfalso; auto|].
    rewrite IH by tauto. reflexivity.
Qed.

(** [len(el) - 1 - list(reversed(el)).index(cart_head)] is the place of
    the last header, and the slice from it is the last section. *)
Lemma last_section pre post :
  ~ In cart_head post ->
  let el := pre ++ cart_head :: post in
  (0 <? count cart_head el)%nat = true
  /\ index cart_head (rev el) = Some (length post)
  /\ slice el (length el - 1 - length post)
           (length el - 1 - length post + 25)
     = firstn 25 (cart_head :: post).
Proof.
  intros Hno el. unfold el. split; [|split].
  - apply Nat.ltb_lt. rewrite count_app. cbn [count].
    rewrite String.eqb_refl. lia.
  - rewrite rev_app_distr. cbn [rev]. rewrite <- app_assoc. cbn [app].
    rewrite index_first by now rewrite <- in_rev.
    now rewrite length_rev.
  - unfold slice. rewrite length_app. cbn [length].
    replace (length pre + S (length post) - 1 - length post)%nat
      with (length pre) by lia.
    replace (length pre + 25 - length pre)%nat with 25%nat by lia.
    rewrite skipn_app, Nat.sub_diag, skipn_all. reflexivity.
Qed.

Section FileParser.

Variable float : string -> option R.
Variable readlines : string -> option (list string).

Lemma parse_orbfit_last_section felfile pre post self :
  readlines felfile = Some (pre ++ cart_head :: post) ->
  ~ In cart_head post ->
  parse_orbfit float readlines felfile self
  = parse_section float (firstn 25 (cart_head :: post)) self.
Proof.
  intros Hfile Hno.
  destruct (last_section pre post Hno) as (Hcount & Hindex & Hslice).
  unfold parse_orbfit, parse_section. unfold mbind at 1, lift at 1.
  rewrite Hfile, Hcount. unfold mbind at 1, lift at 1, index_or_raise.
  rewrite Hindex, Hslice. reflexivity.
Qed.

Lemma parse_orbfit_no_header felfile el self :
  readlines felfile = Some el ->
  ~ In cart_head el ->
  parse_orbfit float readlines felfile self
  = (self, Raised TypeError_no_valid_elements).
Proof.
  intros Hfile Hno. apply count_absent in Hno.
  unfold parse_orbfit. unfold mbind at 1, lift at 1.
  rewrite Hfile, Hno. reflexivity.
Qed.

(** The section parser on two well-formed lines: what is left of the
    call is the covariance parser. *)
Lemma parse_section_lines self l1 l2 rest
      t0 sx sy sz sdx sdy sdz x y z dx dy dz t1 smjd t2 mjd :
  split l1 = [t0; sx; sy; sz; sdx; sdy; sdz] ->
  float sx = Some x -> float sy = Some y -> float sz = Some z ->
  float sdx = Some dx -> float sdy = Some dy -> float sdz = Some dz ->
  split l2 = [t1; smjd; t2] ->
  float smjd = Some mjd ->
  let self1 :=
    with_time (Some (mkTime mjd fmt_mjd scale_tt))
      (with_helio_ecl_vec_EXISTS true
         (with_helio_ecl_vec (Some (Array1 [x; y; z; dx; dy; dz])) self)) in
  parse_section float (firstn 25 (cart_head :: l1 :: l2 :: rest)) self
  = match _parse_Covariance_List float
            (firstn 25 (cart_head :: l1 :: l2 :: rest)) with
    | Returned (CoV_EXISTS, CoV) =>
        (with_helio_ecl_cov (Some CoV)
           (with_helio_ecl_cov_EXISTS CoV_EXISTS self1), Returned tt)
    | Raised e => (self1, Raised e)
    | Exited => (self1, Exited)
    end.
Proof.
  intros Hl1 Hx Hy Hz Hdx Hdy Hdz Hl2 Hmjd self1.
  unfold parse_section.
  replace (getitem (firstn 25 (cart_head :: l1 :: l2 :: rest)) 1)
    with (Returned l1) by reflexivity.
  replace (getitem (firstn 25 (cart_head :: l1 :: l2 :: rest)) 2)
    with (Returned l2) by reflexivity.
  unfold mbind at 1, lift at 1. rewrite Hl1. unfold to_float.
  rewrite Hx, Hy, Hz, Hdx, Hdy, Hdz.
  unfold mbind, lift, assign. rewrite Hl2, Hmjd. fold self1.
  destruct (_parse_Covariance_List float _) as [[ex cov] | e | ];
    reflexivity.
Qed.

Lemma parse_section_returns post self self' :
  parse_section float (firstn 25 (cart_head :: post)) self
  = (self', Returned tt) ->
  exists l1 l2 rest t0 sx sy sz sdx sdy sdz x y z dx dy dz t1 smjd t2 mjd,
    post = l1 :: l2 :: rest
    /\ split l1 = [t0; sx; sy; sz; sdx; sdy; sdz]
    /\ float sx = Some x /\ float sy = Some y /\ float sz = Some z
    /\ float sdx = Some dx /\ float sdy = Some dy /\ float sdz = Some dz
    /\ split l2 = [t1; smjd; t2]
    /\ float smjd = Some mjd.
Proof.
  unfold parse_section. unfold mbind at 1, lift at 1.
  destruct post as [|l1 post]; cbn [firstn getitem nth_error];
    [discriminate|].
  destruct (split l1)
    as [|t0 [|sx [|sy [|sz [|sdx [|sdy [|sdz [|t7 ts]]]]]]]] eqn:Hl1;
    try (unfold raise, lift; discriminate).
  unfold mbind at 1 2 3 4 5 6, lift at 1 2 3 4 5 6, to_float.
  destruct (float sx) as [x|] eqn:Hx; [|discriminate].
  destruct (float sy) as [y|] eqn:Hy; [|discriminate].
  destruct (float sz) as [z|] eqn:Hz; [|discriminate].
  destruct (float sdx) as [dx|] eqn:Hdx; [|discriminate].
  destruct (float sdy) as [dy|] eqn:Hdy; [|discriminate].
  destruct (float sdz) as [dz|] eqn:Hdz; [|discriminate].
  unfold mbind at 1 2 3, assign at 1 2, lift at 1.
  destruct post as [|l2 rest]; cbn [firstn getitem nth_error];
    [discriminate|].
  destruct (split l2) as [|t1 [|smjd [|t2 [|t3 ts]]]] eqn:Hl2;
    try (unfold raise, lift; discriminate).
  unfold mbind at 1, lift at 1.
  destruct (float smjd) as [mjd|] eqn:Hmjd; [|discriminate].
  intros _.
  exists l1, l2, rest, t0, sx, sy, sz, sdx, sdy, sdz, x, y, z, dx, dy, dz,
    t1, smjd, t2, mjd.
  repeat split; assumption.
Qed.

(** C2: in a file that contains the cartesian header, the parser works
    on the section that starts at the last header, so that two files that
    end with the same last section are parsed alike; it returns exactly
    when the line at offset 1 is one token followed by six numeric fields,
    the line at offset 2 is a token, a numeric field and a token, and the
    covariance parser returns on the section; the six fields are then the
    heliocentric-ecliptic vector, its flag is true, and the field of the
    second line is the epoch, a Modified Julian Date in terrestrial
    time. *)
Theorem parse_orbfit_last_cartesian_section :
  forall (felfile : string) (pre post : list string),
    readlines felfile = Some (pre ++ cart_head :: post) ->
    ~ In cart_head post ->
    (forall (felfile' : string) (pre' : list string) (self : ParseElements),
        readlines felfile' = Some (pre' ++ cart_head :: post) ->
        parse_orbfit float readlines felfile self
        = parse_orbfit float readlines felfile' self)
    /\ (forall (self : ParseElements) l1 l2 rest
               t0 sx sy sz sdx sdy sdz x y z dx dy dz t1 smjd t2 mjd
               CoV_EXISTS CoV,
           post = l1 :: l2 :: rest ->
           split l1 = [t0; sx; sy; sz; sdx; sdy; sdz] ->
           float sx = Some x -> float sy = Some y -> float sz = Some z ->
           float sdx = Some dx -> float sdy = Some dy ->
           float sdz = Some dz ->
           split l2 = [t1; smjd; t2] ->
           float smjd = Some mjd ->
           _parse_Covariance_List float (firstn 25 (cart_head :: post))
           = Returned (CoV_EXISTS, CoV) ->
           exists self',
             parse_orbfit float readlines felfile self
             = (self', Returned tt)
             /\ helio_ecl_vec self' = Some (Array1 [x; y; z; dx; dy; dz])
             /\ helio_ecl_vec_EXISTS self' = true
             /\ time self' = Some (mkTime mjd fmt_mjd scale_tt)
             /\ helio_ecl_cov_EXISTS self' = CoV_EXISTS
             /\ helio_ecl_cov self' = Some CoV)
    /\ (forall self self' : ParseElements,
           parse_orbfit float readlines felfile self
           = (self', Returned tt) ->
           exists l1 l2 rest t0 sx sy sz sdx sdy sdz x y z dx dy dz
                  t1 smjd t2 mjd,
             post = l1 :: l2 :: rest
             /\ split l1 = [t0; sx; sy; sz; sdx; sdy; sdz]
             /\ float sx = Some x /\ float sy = Some y
             /\ float sz = Some z /\ float sdx = Some dx
             /\ float sdy = Some dy /\ float sdz = Some dz
             /\ split l2 = [t1; smjd; t2]
             /\ float smjd = Some mjd
             /\ helio_ecl_vec self' = Some (Array1 [x; y; z; dx; dy; dz])
             /\ helio_ecl_vec_EXISTS self' = true
             /\ time self' = Some (mkTime mjd fmt_mjd scale_tt)).
Proof.
  intros felfile pre post Hfile Hno. split; [|split].
  - intros felfile' pre' self Hfile'.
    rewrite (parse_orbfit_last_section felfile pre post self Hfile Hno).
    now rewrite (parse_orbfit_last_section felfile' pre' post self Hfile' Hno).
  - intros self l1 l2 rest t0 sx sy sz sdx sdy sdz x y z dx dy dz
           t1 smjd t2 mjd CoV_EXISTS CoV
           -> Hl1 Hx Hy Hz Hdx Hdy Hdz Hl2 Hmjd Hcov.
    rewrite (parse_orbfit_last_section felfile pre _ self Hfile Hno).
    rewrite (parse_section_lines self l1 l2 rest _ _ _ _ _ _ _ _ _ _ _ _ _
               _ _ _ _ Hl1 Hx Hy Hz Hdx Hdy Hdz Hl2 Hmjd).
    rewrite Hcov. eexists. split; [reflexivity|].
    destruct self; repeat split.
  - intros self self' Hret.
    rewrite (parse_orbfit_last_section felfile pre post self Hfile Hno)
      in Hret.
    destruct (parse_section_returns post self self' Hret)
      as (l1 & l2 & rest & t0 & sx & sy & sz & sdx & sdy & sdz
          & x & y & z & dx & dy & dz & t1 & smjd & t2 & mjd
          & -> & Hl1 & Hx & Hy & Hz & Hdx & Hdy & Hdz & Hl2 & Hmjd).
    exists l1, l2, rest, t0, sx, sy, sz, sdx, sdy, sdz, x, y, z, dx, dy, dz,
      t1, smjd, t2, mjd.
    rewrite (parse_section_lines self l1 l2 rest _ _ _ _ _ _ _ _ _ _ _ _ _
               _ _ _ _ Hl1 Hx Hy Hz Hdx Hdy Hdz Hl2 Hmjd) in Hret.
    destruct (_parse_Covariance_List float _) as [[ex cov] | e | ];
      try discriminate.
    injection Hret as <-.
    destruct self; repeat split; assumption.
Qed.

End FileParser.

(** ** The orchestrator: construction and serialization *)

Lemma append_assoc (a b c : string) :
  ((a ++ b) ++ c)%string = (a ++ (b ++ c))%string.
Proof. induction a as [|x a IH]; cbn [append]; [reflexivity | now rewrite IH]. Qed.

Lemma append_empty_r (a : string) : (a ++ EmptyString)%string = a.
Proof. induction a as [|x a IH]; cbn [append]; [reflexivity | now rewrite IH]. Qed.

Section Orchestrator.

Variable compute_and_differentiate : R -> vec3 * vec3.
Variable tdb_jd : Time -> R.
Variable float : string -> option R.
Variable readlines : string -> option (list string).
Variable format_float : string -> R -> string.

(** C6: on a file without the cartesian header the parser raises the
    no-valid-elements error and leaves the object as it was; the
    constructor called on such a file (as fel or eq) raises the same
    error, no object is returned, and the object under construction
    still has every flag false and no vector, covariance or epoch. *)
Theorem parse_orbfit_without_header :
  forall (felfile : string) (el : list string),
    readlines felfile = Some el ->
    ~ In cart_head el ->
    (forall self : ParseElements,
        parse_orbfit float readlines felfile self
        = (self, Raised TypeError_no_valid_elements))
    /\ (forall (filetype : string) (save_parsed : bool),
           filetype = "fel" \/ filetype = "eq" ->
           init compute_and_differentiate tdb_jd float readlines
             format_float (Some felfile) (Some filetype) save_parsed
           = (empty_object, None, Raised TypeError_no_valid_elements)
           /\ ParseElements_new compute_and_differentiate tdb_jd float
                readlines format_float (Some felfile) (Some filetype)
                save_parsed
              = Raised TypeError_no_valid_elements).
Proof.
  intros felfile el Hfile Hno. split.
  - intros self. exact (parse_orbfit_no_header float readlines felfile el
                          self Hfile Hno).
  - intros filetype save_parsed Hft.
    assert (Hinit :
              init compute_and_differentiate tdb_jd float readlines
                format_float (Some felfile) (Some filetype) save_parsed
              = (empty_object, None, Raised TypeError_no_valid_elements)).
    { unfold init.
      destruct Hft as [-> | ->]; cbn [String.eqb Ascii.eqb Bool.eqb orb];
        unfold mbind at 1 2, mret at 1;
        now rewrite (parse_orbfit_no_header float readlines felfile el
                       empty_object Hfile Hno). }
    split; [exact Hinit|]. unfold ParseElements_new. now rewrite Hinit.
Qed.

(** C9: for an object with an epoch and a barycentric-equatorial vector
    of six components, the file written has the lines [tstart <jd>], where
    <jd> is the epoch as a TDB Julian date, [tstep +20.0], [trange 600.],
    [geocentric 0], [state], then components 0 to 2 on one line and 3 to 5
    on the next, each formatted with the specification [ 18.15e] and
    followed by a space. *)
Theorem save_elements_layout :
  forall (self : ParseElements) (t : Time) (c0 c1 c2 c3 c4 c5 : R),
    time self = Some t ->
    bary_eq_vec self = Some (Array1 [c0; c1; c2; c3; c4; c5]) ->
    let f := format_float " 18.15e" in
    save_elements tdb_jd format_float self
    = (with_tstart (Some (tdb_jd t)) self,
       Some (unlines
               [("tstart " ++ format_float EmptyString (tdb_jd t))%string;
                "tstep +20.0";
                "trange 600.";
                "geocentric 0";
                "state";
                (f c0 ++ " " ++ f c1 ++ " " ++ f c2 ++ " ")%string;
                (f c3 ++ " " ++ f c4 ++ " " ++ f c5 ++ " ")%string]),
       Returned tt).
Proof.
  intros self t c0 c1 c2 c3 c4 c5 Ht Hv f.
  unfold save_elements. rewrite Ht.
  replace (bary_eq_vec (with_tstart (Some (tdb_jd t)) self))
    with (Some (Array1 [c0; c1; c2; c3; c4; c5]))
    by (now destruct self).
  f_equal. f_equal. f_equal.
  cbn [write_coeffs mem existsb Nat.eqb orb unlines fold_right].
  fold f. rewrite !append_assoc, !append_empty_r. reflexivity.
Qed.

End Orchestrator.

(** ** What the parser hands to the transform step *)

Lemma last_occurrence (x : string) (l : list string) :
  In x l -> exists pre post, l = pre ++ x :: post /\ ~ In x post.
Proof.
  induction l as [|y l IH]; intros Hin; [destruct Hin|].
  destruct (in_dec string_dec x l) as [Hl | Hl].
  - destruct (IH Hl) as (pre & post & -> & Hpost).
    exists (y :: pre), post. split; [reflexivity | exact Hpost].
  - destruct Hin as [-> | Hin]; [|contradiction].
    exists [], l. split; [reflexivity | exact Hl].
Qed.

Lemma parse_Covariance_List_returns float Els CoV_EXISTS CoV :
  _parse_Covariance_List float Els = Returned (CoV_EXISTS, CoV) ->
  (CoV_EXISTS = false /\ CoV = Array2 (zeros 6 6))
  \/ (CoV_EXISTS = true /\ exists xs, CoV = Array2 (upper_mirrored xs)).
Proof.
  intros H.
  destruct (Nat.eq_dec (length (filter is_cov_line Els)) 7) as [Hlen | Hlen].
  - destruct (parsed_entries float (filter is_cov_line Els)) as [xs|] eqn:E.
    + rewrite (parse_Covariance_List_present float Els xs Hlen E) in H.
      injection H as <- <-. right. eauto.
    + destruct (parse_Covariance_List_unparsed float Els Hlen E) as (e & He & _).
      rewrite He in H. discriminate.
  - rewrite (parse_Covariance_List_absent float Els Hlen) in H.
    injection H as <- <-. left. auto.
Qed.

(** A file the parser returns on leaves the object fit for the transform
    step, whatever the object held before. *)
Lemma parse_orbfit_transformable float readlines felfile self self' :
  parse_orbfit float readlines felfile self = (self', Returned tt) ->
  transformable self'.
Proof.
  intros Hret.
  destruct (readlines felfile) as [el|] eqn:Hfile;
    [|unfold parse_orbfit in Hret; unfold mbind at 1, lift at 1 in Hret;
      rewrite Hfile in Hret; discriminate].
  destruct (in_dec string_dec cart_head el) as [Hin | Hno];
    [|rewrite (parse_orbfit_no_header float readlines felfile el self
                 Hfile Hno) in Hret; discriminate].
  destruct (last_occurrence cart_head el Hin) as (pre & post & -> & Hpost).
  rewrite (parse_orbfit_last_section float readlines felfile pre post self
             Hfile Hpost) in Hret.
  destruct (parse_section_returns float post self self' Hret)
    as (l1 & l2 & rest & t0 & sx & sy & sz & sdx & sdy & sdz
        & x & y & z & dx & dy & dz & t1 & smjd & t2 & mjd
        & -> & Hl1 & Hx & Hy & Hz & Hdx & Hdy & Hdz & Hl2 & Hmjd).
  rewrite (parse_section_lines float self l1 l2 rest _ _ _ _ _ _ _ _ _ _ _ _ _
             _ _ _ _ Hl1 Hx Hy Hz Hdx Hdy Hdz Hl2 Hmjd) in Hret.
  destruct (_parse_Covariance_List float _) as [[ex cov] | e | ] eqn:Hcov;
    try discriminate.
  injection Hret as <-. destruct self. split; cbn; intros Hflag.
  - exists [x; y; z; dx; dy; dz], (mkTime mjd fmt_mjd scale_tt).
    repeat split. right. reflexivity.
  - destruct (parse_Covariance_List_returns float _ ex cov Hcov)
      as [[-> _] | [_ (xs & ->)]]; [discriminate|].
    exists (upper_mirrored xs). split; reflexivity.
Qed.

(** * Worked instances *)

Lemma helio2bary_adds_displacement_witness :
  exists w,
    equatorial_helio2bary ephemeris_fixture (Array1 [1; 2; 3]) 0 true
    = Returned (Array1 w)
    /\ length w = 3%nat
    /\ forall i, (i < 3)%nat ->
         nth i w 0 = nth i [1; 2; 3] 0 - displacement_au ephemeris_fixture 0 i.
Proof.
  apply (proj1 (helio2bary_adds_displacement ephemeris_fixture tdb_jd_fixture)
           [1; 2; 3] 0 true).
  left. reflexivity.
Defined.

Lemma last_section_fixture_no_header : ~ In cart_head last_section_fixture.
Proof. apply count_absent. reflexivity. Qed.

Lemma parse_orbfit_last_cartesian_section_witness :
  exists self',
    parse_orbfit float_fixture readlines_fixture "two_sections.fel"
      empty_object
    = (self', Returned tt)
    /\ helio_ecl_vec self' = Some (Array1 [1; 2; 3; 0.1; 0.2; 0.3])
    /\ helio_ecl_vec_EXISTS self' = true
    /\ time self' = Some (mkTime 58849 fmt_mjd scale_tt)
    /\ helio_ecl_cov_EXISTS self' = true
    /\ helio_ecl_cov self' = Some (Array2 covariance_fixture).
Proof.
  apply (proj1 (proj2 (parse_orbfit_last_cartesian_section
                         float_fixture readlines_fixture "two_sections.fel"
                         first_section_fixture last_section_fixture
                         eq_refl last_section_fixture_no_header))
           empty_object
           ("X 1.0 2.0 3.0 0.1 0.2 0.3" ++ nl)%string
           ("X 58849.0 X" ++ nl)%string
           (skipn 2 last_section_fixture)
           "X" "1.0" "2.0" "3.0" "0.1" "0.2" "0.3"
           1 2 3 0.1 0.2 0.3 "X" "58849.0" "X" 58849);
    reflexivity.
Defined.

Lemma parse_Covariance_List_contract_witness :
  _parse_Covariance_List float_fixture covariance_lines_fixture
  = Returned (true, Array2 covariance_fixture)
  /\ _parse_Covariance_List float_fixture (firstn 4 covariance_lines_fixture)
     = Returned (false, Array2 (zeros 6 6)).
Proof.
  split.
  - apply (proj2 (parse_Covariance_List_contract float_fixture
                    covariance_lines_fixture) eq_refl
             [1; 2; 3; 4; 5; 6; 7; 8; 9; 10; 11; 12; 13; 14; 15; 16; 17; 18;
              19; 20; 21]).
    reflexivity.
  - apply (proj1 (parse_Covariance_List_contract float_fixture
                    (firstn 4 covariance_lines_fixture))).
    vm_compute. discriminate.
Defined.




Lemma parse_orbfit_without_header_witness :
  parse_orbfit float_fixture readlines_fixture "no_section.fel" empty_object
  = (empty_object, Raised TypeError_no_valid_elements)
  /\ ParseElements_new ephemeris_fixture tdb_jd_fixture float_fixture
       readlines_fixture format_fixture
       (Some "no_section.fel") (Some "fel") true
     = Raised TypeError_no_valid_elements.
Proof.
  assert (Hno : ~ In cart_head [("format = OEF2.0" ++ nl)%string])
    by (apply count_absent; reflexivity).
  pose proof (parse_orbfit_without_header ephemeris_fixture tdb_jd_fixture
                float_fixture readlines_fixture format_fixture
                "no_section.fel" _ eq_refl Hno) as [Hparse Hinit].
  split.
  - exact (Hparse empty_object).
  - exact (proj2 (Hinit "fel" true (or_introl eq_refl))).
Defined.

Lemma parsed_fixture_transformable : transformable parsed_fixture.
Proof.
  split; intros _.
  - exists [1; 2; 3; 0.1; 0.2; 0.3], (mkTime 58849 fmt_mjd scale_tt).
    repeat split. right. reflexivity.
  - exists covariance_fixture. split; reflexivity.
Qed.

Lemma make_bary_equatorial_contract_witness :
  snd (make_bary_equatorial ephemeris_fixture tdb_jd_fixture parsed_fixture)
  = Returned true
  /\ bary_eq_vec_EXISTS
       (fst (make_bary_equatorial ephemeris_fixture tdb_jd_fixture
               parsed_fixture)) = true
  /\ bary_eq_cov_EXISTS
       (fst (make_bary_equatorial ephemeris_fixture tdb_jd_fixture
               parsed_fixture)) = true.
Proof.
  pose proof (make_bary_equatorial_contract ephemeris_fixture tdb_jd_fixture
                parsed_fixture) as (_ & _ & H).
  destruct (H parsed_fixture_transformable) as (Hv & _ & Hc & _ & Hr).
  split; [|split].
  - apply Hr. left. reflexivity.
  - apply Hv. reflexivity.
  - apply Hc. reflexivity.
Defined.

Lemma ecliptic_to_equatorial_shape_contract_witness :
  ecliptic_to_equatorial (Array1 [1; 2]) false = Exited
  /\ exists output,
       ecliptic_to_equatorial (Array1 [1; 2; 3]) false = Returned output
       /\ shape output = [3%nat].
Proof.
  split.
  - apply (proj1 (ecliptic_to_equatorial_shape_contract (Array1 [1; 2]) false)).
    intros [[_ [H | H]] | [H _]]; discriminate H.
  - apply (proj2 (ecliptic_to_equatorial_shape_contract
                    (Array1 [1; 2; 3]) false)).
    left. split; [reflexivity | left; reflexivity].
Defined.

Lemma save_elements_layout_witness :
  save_elements tdb_jd_fixture format_fixture transformed_fixture
  = (with_tstart (Some (58849 + 2400000.5)) transformed_fixture,
     Some (unlines ["tstart #"; "tstep +20.0"; "trange 600."; "geocentric 0";
                    "state"; "# # # "; "# # # "]),
     Returned tt).
Proof.
  apply (save_elements_layout tdb_jd_fixture format_fixture
           transformed_fixture (mkTime 58849 fmt_mjd scale_tt)
           1 2 3 0.1 0.2 0.3); reflexivity.
Defined.

Lemma parse_Covariance_List_malformed_row_raises_witness :
  exists e,
    _parse_Covariance_List float_fixture malformed_covariance_lines = Raised e
    /\ (e = ValueError_unpack \/ e = ValueError_float).
Proof.
  apply (proj1 (parse_Covariance_List_malformed_row_raises float_fixture)
           malformed_covariance_lines).
  - reflexivity.
  - exists " COV 1.0 2.0". split; [left; reflexivity|].
    vm_compute. discriminate.
Defined.

(** * Further properties of the module *)

(** ** The rotation, by parts *)









(** A 6x6 matrix, taken apart. *)
Ltac explode_matrix C HC Hrows :=
  let E := fresh "E" in
  destruct (rows_of_length_6 C HC Hrows) as
    (?c00 & ?c01 & ?c02 & ?c03 & ?c04 & ?c05
     & ?c10 & ?c11 & ?c12 & ?c13 & ?c14 & ?c15
     & ?c20 & ?c21 & ?c22 & ?c23 & ?c24 & ?c25
     & ?c30 & ?c31 & ?c32 & ?c33 & ?c34 & ?c35
     & ?c40 & ?c41 & ?c42 & ?c43 & ?c44 & ?c45
     & ?c50 & ?c51 & ?c52 & ?c53 & ?c54 & ?c55 & E);
  subst C; clear HC Hrows.

(** ** The translation *)

Section TranslationFurther.

Variable compute_and_differentiate : R -> vec3 * vec3.

Lemma helio2bary_rejects input t backwards :
  ~ (ndim (atleast_1d input) = 1%nat
     /\ (shape (atleast_1d input) = [3%nat]
         \/ shape (atleast_1d input) = [6%nat])) ->
  equatorial_helio2bary compute_and_differentiate input t backwards
  = Raised AssertionError.
Proof.
  intros Hno. unfold equatorial_helio2bary.
  destruct (ndim (atleast_1d input) =? 1)%nat eqn:Hd; [|reflexivity].
  cbn [negb].
  destruct (mem (nth 0 (shape (atleast_1d input)) 0%nat) [3; 6]%nat) eqn:Hm;
    [|reflexivity].
  exfalso. apply Hno. apply Nat.eqb_eq in Hd. split; [exact Hd|].
  destruct input as [x | v | m | d0 d1 d2 ds];
    cbn [atleast_1d ndim shape nth] in *; try discriminate.
  unfold mem in Hm. cbn [existsb] in Hm. rewrite orb_false_r in Hm.
  apply orb_prop in Hm as [H | H]; apply Nat.eqb_eq in H; rewrite H; auto.
Qed.

(** The translation never exits the interpreter: an input that is not,
    after [atleast_1d], a 1-D array of length 3 or 6 (a scalar, a vector
    of another length, a matrix such as a covariance) raises
    AssertionError, and every other input gives back an array of the
    input's shape. *)
Theorem equatorial_helio2bary_shape_contract :
  forall (input : ndarray) (t : R) (backwards : bool),
    equatorial_helio2bary compute_and_differentiate input t backwards
    <> Exited
    /\ (~ (ndim (atleast_1d input) = 1%nat
           /\ (shape (atleast_1d input) = [3%nat]
               \/ shape (atleast_1d input) = [6%nat])) ->
        equatorial_helio2bary compute_and_differentiate input t backwards
        = Raised AssertionError)
    /\ (ndim input = 1%nat
        /\ (shape input = [3%nat] \/ shape input = [6%nat]) ->
        exists output,
          equatorial_helio2bary compute_and_differentiate input t backwards
          = Returned output
          /\ shape output = shape input).
Proof.
  intros input t backwards. split; [|split].
  - unfold equatorial_helio2bary.
    destruct (negb (ndim (atleast_1d input) =? 1)%nat); [discriminate|].
    destruct (negb (mem (nth 0 (shape (atleast_1d input)) 0%nat) [3; 6]%nat));
      [discriminate|].
    destruct (compute_and_differentiate t). discriminate.
  - apply helio2bary_rejects.
  - intros [Hd Hs].
    destruct input as [x | v | m | d0 d1 d2 ds]; try discriminate Hd.
    assert (Hv : length v = 3%nat \/ length v = 6%nat)
      by (cbn [shape] in Hs; destruct Hs as [Hs | Hs]; injection Hs; auto).
    destruct (helio2bary_components compute_and_differentiate v t backwards Hv)
      as (w & Hw & Hlen & _).
    exists (Array1 w). split; [exact Hw|]. cbn [shape]. now rewrite Hlen.
Qed.

(** The translation of a 6-vector moves its position part as the
    translation of a 3-vector moves it: the first three components of the
    result are the translated position. *)
Theorem translation_of_position_part :
  forall (p q : list R) (t : R) (backwards : bool),
    length p = 3%nat -> length q = 3%nat ->
    exists p' q',
      equatorial_helio2bary compute_and_differentiate (Array1 p) t backwards
      = Returned (Array1 p')
      /\ equatorial_helio2bary compute_and_differentiate
           (Array1 (p ++ q)) t backwards
         = Returned (Array1 (p' ++ q'))
      /\ length p' = 3%nat /\ length q' = 3%nat.
Proof.
  intros p q t backwards Hp Hq.
  rewrite (helio2bary_vec3 _ p t backwards Hp).
  rewrite helio2bary_vec6 by (rewrite length_app; lia).
  destruct (compute_and_differentiate t) as [[[dx dy] dz] [[dx' dy'] dz']].
  explode_list p Hp. explode_list q Hq.
  cbn [fst snd array3 map vadd app]. eexists. eexists.
  split; [reflexivity|]. split; [cbn [app]; reflexivity|].
  split; reflexivity.
Qed.

End TranslationFurther.

Lemma equatorial_helio2bary_shape_contract_witness :
  equatorial_helio2bary ephemeris_fixture
    (Array2 covariance_fixture) 0 false
  = Raised AssertionError
  /\ exists output,
       equatorial_helio2bary ephemeris_fixture
         (Array1 [1; 2; 3]) 0 false
       = Returned output
       /\ shape output = [3%nat].
Proof.
  split.
  - apply (proj1 (proj2 (equatorial_helio2bary_shape_contract ephemeris_fixture
                           (Array2 covariance_fixture) 0 false))).
    intros [H _]. discriminate H.
  - apply (proj2 (proj2 (equatorial_helio2bary_shape_contract ephemeris_fixture
                           (Array1 [1; 2; 3]) 0 false))).
    split; [reflexivity | left; reflexivity].
Defined.

Lemma translation_of_position_part_witness :
  exists p' q',
    equatorial_helio2bary ephemeris_fixture (Array1 [1; 2; 3]) 0 true
    = Returned (Array1 p')
    /\ equatorial_helio2bary ephemeris_fixture
         (Array1 ([1; 2; 3] ++ [0.1; 0.2; 0.3])) 0 true
       = Returned (Array1 (p' ++ q'))
    /\ length p' = 3%nat /\ length q' = 3%nat.
Proof.
  apply (translation_of_position_part ephemeris_fixture
           [1; 2; 3] [0.1; 0.2; 0.3] 0 true);
    reflexivity.
Defined.

(** ** The transform step, further *)

Section TransformFurther.

Variable compute_and_differentiate : R -> vec3 * vec3.
Variable tdb_jd : Time -> R.

Lemma make_bary_equatorial_frame self :
  helio_and_times
    (fst (make_bary_equatorial compute_and_differentiate tdb_jd self))
  = helio_and_times self.
Proof.
  destruct self as [ve v ce c bve bv bce bc t ts].
  unfold make_bary_equatorial, helio_and_times. run_method.
  destruct ve.
  - destruct (ecliptic_to_equatorial_value v false) as [rv | e | ];
      [|reflexivity..].
    destruct t as [t|]; [|reflexivity].
    destruct (equatorial_helio2bary _ rv (tdb_jd t) false) as [w | e | ];
      [|reflexivity..].
    destruct ce; [|reflexivity].
    destruct (ecliptic_to_equatorial_value c false); reflexivity.
  - destruct ce; [|reflexivity].
    destruct (ecliptic_to_equatorial_value c false); reflexivity.
Qed.

(** Whatever the outcome, the transform step leaves the heliocentric
    fields, the epoch and [tstart] as they were: it only ever writes the
    barycentric-equatorial fields. *)
Theorem make_bary_equatorial_keeps_inputs :
  forall self : ParseElements,
    helio_and_times
      (fst (make_bary_equatorial compute_and_differentiate tdb_jd self))
    = helio_and_times self.
Proof. exact make_bary_equatorial_frame. Qed.

Lemma make_bary_equatorial_again self self' b :
  make_bary_equatorial compute_and_differentiate tdb_jd self
  = (self', Returned b) ->
  b = true
  /\ make_bary_equatorial compute_and_differentiate tdb_jd self'
     = (self', Returned true).
Proof.
  revert self' b. destruct self as [ve v ce c bve bv bce bc t ts].
  intros self' b.
  unfold make_bary_equatorial. run_method.
  destruct ve.
  - destruct (ecliptic_to_equatorial_value v false) as [rv | e | ] eqn:Hrv;
      [|discriminate..].
    destruct t as [t|]; [|discriminate].
    destruct (equatorial_helio2bary _ rv (tdb_jd t) false) as [w | e | ] eqn:Hw;
      [|discriminate..].
    destruct ce.
    + destruct (ecliptic_to_equatorial_value c false) as [rc | e | ] eqn:Hrc;
        [|discriminate..].
      intros H. injection H as <- <-. split; [reflexivity|].
      run_method. rewrite Hrv. run_method. rewrite Hw. run_method.
      rewrite Hrc. reflexivity.
    + intros H. injection H as <- <-. split; [reflexivity|].
      run_method. rewrite Hrv. run_method. rewrite Hw. reflexivity.
  - destruct ce; [|discriminate].
    destruct (ecliptic_to_equatorial_value c false) as [rc | e | ] eqn:Hrc;
      [|discriminate..].
    intros H. injection H as <- <-. split; [reflexivity|].
    run_method. rewrite Hrc. reflexivity.
Qed.

(** A transform step that returned can be repeated: the second call
    returns True as well and leaves the object exactly as the first call
    left it.  (The constructor does so for the ele220 file type.) *)
Theorem make_bary_equatorial_repeatable :
  forall (self self' : ParseElements) (b : bool),
    make_bary_equatorial compute_and_differentiate tdb_jd self
    = (self', Returned b) ->
    b = true
    /\ make_bary_equatorial compute_and_differentiate tdb_jd self'
       = (self', Returned true).
Proof. exact make_bary_equatorial_again. Qed.

(** The transform step on an object whose flagged fields are there. *)
Lemma make_bary_equatorial_returns self :
  transformable self ->
  helio_ecl_vec_EXISTS self = true \/ helio_ecl_cov_EXISTS self = true ->
  exists self',
    make_bary_equatorial compute_and_differentiate tdb_jd self
    = (self', Returned true)
    /\ bary_eq_vec_EXISTS self'
       = (helio_ecl_vec_EXISTS self || bary_eq_vec_EXISTS self)%bool
    /\ bary_eq_cov_EXISTS self'
       = (helio_ecl_cov_EXISTS self || bary_eq_cov_EXISTS self)%bool
    /\ (helio_ecl_vec_EXISTS self = true ->
        exists w, bary_eq_vec self' = Some (Array1 w)
                  /\ (length w = 3%nat \/ length w = 6%nat))
    /\ (helio_ecl_vec_EXISTS self = false ->
        bary_eq_vec self' = bary_eq_vec self)
    /\ (helio_ecl_cov_EXISTS self = false ->
        bary_eq_cov self' = bary_eq_cov self).
Proof.
  intros [Hvec Hcov] Hsome.
  destruct self as [ve v ce c bve bv bce bc t ts].
  cbn [helio_ecl_vec_EXISTS helio_ecl_vec helio_ecl_cov_EXISTS
       helio_ecl_cov time bary_eq_vec bary_eq_vec_EXISTS bary_eq_cov
       bary_eq_cov_EXISTS] in *.
  assert (Hcov' : ce = true ->
            exists c0 rc, c = Some c0
              /\ ecliptic_to_equatorial c0 false = Returned rc).
  { intros Hce. destruct (Hcov Hce) as (m & -> & Hm).
    exists (Array2 m). eexists. split; [reflexivity|].
    now apply ecliptic_to_equatorial_mat66. }
  assert (Hvec' : ve = true ->
            exists v0 t0 rv w, v = Some v0 /\ t = Some t0
              /\ ecliptic_to_equatorial v0 false = Returned rv
              /\ equatorial_helio2bary compute_and_differentiate
                   rv (tdb_jd t0) false = Returned (Array1 w)
              /\ (length w = 3%nat \/ length w = 6%nat)).
  { intros Hve. destruct (Hvec Hve) as (v0 & t0 & -> & Hlen & ->).
    destruct (rotate_then_translate compute_and_differentiate v0 (tdb_jd t0)
                Hlen)
      as (rv & w & Hrv & _ & Hw & Hwl & _).
    exists (Array1 v0), t0, (Array1 rv), w.
    repeat split; try assumption. now rewrite Hwl. }
  clear Hvec Hcov. unfold make_bary_equatorial. run_method.
  destruct ve, ce.
  - destruct (Hvec' eq_refl)
      as (v0 & t0 & rv & w & -> & -> & Hrv & Hw & Hwl).
    destruct (Hcov' eq_refl) as (c0 & rc & -> & Hrc).
    cbn [ecliptic_to_equatorial_value].
    rewrite Hrv; run_method; rewrite Hw; run_method.
    cbn [ecliptic_to_equatorial_value]. rewrite Hrc; run_method.
    eexists. split; [reflexivity|]. cbn.
    repeat split; try discriminate; eauto.
  - destruct (Hvec' eq_refl)
      as (v0 & t0 & rv & w & -> & -> & Hrv & Hw & Hwl).
    cbn [ecliptic_to_equatorial_value].
    rewrite Hrv; run_method; rewrite Hw; run_method.
    eexists. split; [reflexivity|]. cbn.
    repeat split; try discriminate; eauto.
  - destruct (Hcov' eq_refl) as (c0 & rc & -> & Hrc).
    cbn [ecliptic_to_equatorial_value]. rewrite Hrc; run_method.
    eexists. split; [reflexivity|]. cbn.
    repeat split; try discriminate; eauto.
  - destruct Hsome; discriminate.
Qed.

End TransformFurther.

Lemma make_bary_equatorial_repeatable_witness :
  true = true
  /\ make_bary_equatorial ephemeris_fixture tdb_jd_fixture
       (fst (make_bary_equatorial ephemeris_fixture tdb_jd_fixture
               parsed_fixture))
     = (fst (make_bary_equatorial ephemeris_fixture tdb_jd_fixture
               parsed_fixture), Returned true).
Proof.
  apply (make_bary_equatorial_repeatable ephemeris_fixture tdb_jd_fixture
           parsed_fixture).
  destruct (make_bary_equatorial_returns ephemeris_fixture tdb_jd_fixture
              parsed_fixture parsed_fixture_transformable
              (or_introl eq_refl)) as (self' & -> & _).
  reflexivity.
Defined.

(** ** The covariance parsers, further *)

(** The mirroring loop of the covariance parser makes any 6x6 matrix
    symmetric: the upper triangle and the diagonal stay, and every entry
    below the diagonal becomes the entry mirrored above it. *)
Theorem mirror_lower_symmetrizes :
  forall M : list (list R),
    length M = 6%nat -> Forall (fun row => length row = 6%nat) M ->
    symmetric (mirror_lower M)
    /\ shape (Array2 (mirror_lower M)) = [6; 6]%nat
    /\ forall i j, (i <= j)%nat -> (j < 6)%nat ->
         entry (mirror_lower M) i j = entry M i j
         /\ entry (mirror_lower M) j i = entry M i j.
Proof.
  intros M HM Hrows. explode_matrix M HM Hrows.
  assert (Hup : forall i j, (i <= j)%nat -> (j < 6)%nat ->
            entry (mirror_lower
                     [[c00; c01; c02; c03; c04; c05];
                      [c10; c11; c12; c13; c14; c15];
                      [c20; c21; c22; c23; c24; c25];
                      [c30; c31; c32; c33; c34; c35];
                      [c40; c41; c42; c43; c44; c45];
                      [c50; c51; c52; c53; c54; c55]]) i j
            = entry [[c00; c01; c02; c03; c04; c05];
                     [c10; c11; c12; c13; c14; c15];
                     [c20; c21; c22; c23; c24; c25];
                     [c30; c31; c32; c33; c34; c35];
                     [c40; c41; c42; c43; c44; c45];
                     [c50; c51; c52; c53; c54; c55]] i j
            /\ entry (mirror_lower
                        [[c00; c01; c02; c03; c04; c05];
                         [c10; c11; c12; c13; c14; c15];
                         [c20; c21; c22; c23; c24; c25];
                         [c30; c31; c32; c33; c34; c35];
                         [c40; c41; c42; c43; c44; c45];
                         [c50; c51; c52; c53; c54; c55]]) j i
               = entry [[c00; c01; c02; c03; c04; c05];
                        [c10; c11; c12; c13; c14; c15];
                        [c20; c21; c22; c23; c24; c25];
                        [c30; c31; c32; c33; c34; c35];
                        [c40; c41; c42; c43; c44; c45];
                        [c50; c51; c52; c53; c54; c55]] i j).
  { intros i j Hij Hj. assert (Hi : (i < 6)%nat) by lia.
    destruct (lt_6_cases i Hi) as [-> | [-> | [-> | [-> | [-> | ->]]]]];
      destruct (lt_6_cases j Hj) as [-> | [-> | [-> | [-> | [-> | ->]]]]];
      try (exfalso; lia); split; reflexivity. }
  split; [|split; [reflexivity | exact Hup]].
  intros i j Hi Hj. destruct (Nat.le_ge_cases i j) as [H | H].
  - destruct (Hup i j H Hj) as [E1 E2]. now rewrite E1, E2.
  - destruct (Hup j i H Hi) as [E1 E2]. now rewrite E1, E2.
Qed.

Lemma mirror_lower_symmetrizes_witness :
  symmetric (mirror_lower (map (map (Rmult 0.01)) (ones 6 6)))
  /\ shape (Array2 (mirror_lower (map (map (Rmult 0.01)) (ones 6 6))))
     = [6; 6]%nat
  /\ forall i j, (i <= j)%nat -> (j < 6)%nat ->
       entry (mirror_lower (map (map (Rmult 0.01)) (ones 6 6))) i j
       = entry (map (map (Rmult 0.01)) (ones 6 6)) i j
       /\ entry (mirror_lower (map (map (Rmult 0.01)) (ones 6 6))) j i
          = entry (map (map (Rmult 0.01)) (ones 6 6)) i j.
Proof.
  apply (mirror_lower_symmetrizes (map (map (Rmult 0.01)) (ones 6 6))).
  - reflexivity.
  - repeat constructor.
Defined.

Lemma unpack_tokens_row line :
  unpack_tokens line
  = match row_tokens line with
    | Some r => Returned r
    | None => Raised ValueError_unpack
    end.
Proof.
  unfold unpack_tokens, row_tokens.
  now destruct (split line) as [|t0 [|a [|b [|c [|t4 ts]]]]].
Qed.

Lemma row_tokens_length line r :
  row_tokens line = Some r -> length r = 3%nat.
Proof.
  unfold row_tokens.
  destruct (split line) as [|t0 [|a [|b [|c [|t4 ts]]]]]; try discriminate.
  intros H. now injection H as <-.
Qed.

Lemma rows_tokens_length lines toks :
  rows_tokens lines = Some toks -> length toks = (3 * length lines)%nat.
Proof.
  revert toks; induction lines as [|l ls IH]; intros toks; cbn [rows_tokens].
  - intros H. now injection H as <-.
  - destruct (row_tokens l) as [r|] eqn:Hr; [|discriminate].
    destruct (rows_tokens ls) as [rs|]; [|discriminate].
    intros H. injection H as <-.
    rewrite length_app, (row_tokens_length l r Hr), (IH rs eq_refl).
    cbn [length]. lia.
Qed.

Lemma old_parse_Covariance_List_rows Els :
  length (filter is_cov_line Els) = 7%nat ->
  _old_parse_Covariance_List Els
  = match rows_tokens (filter is_cov_line Els) with
    | Some toks => Returned (EmptyString :: toks)
    | None => Raised ValueError_unpack
    end.
Proof.
  intros Hlen. unfold _old_parse_Covariance_List. rewrite Hlen.
  cbn [Nat.eqb negb]. remember (filter is_cov_line Els) as ElCov eqn:E.
  clear E. explode_list ElCov Hlen.
  cbn [getitem nth_error obind rows_tokens]. rewrite !unpack_tokens_row.
  repeat match goal with
         | |- context [row_tokens ?l] =>
             destruct (row_tokens l); cbn [obind]; [|reflexivity]
         end.
  now rewrite app_nil_r.
Qed.

(** The superseded parser returns a tuple of 22 strings or raises on
    unpacking.  With a number of prefixed lines other than seven the tuple
    is the error text and 21 empty strings; with seven such lines it is
    the empty error text and the 21 tokens of the rows, not converted, if
    every row splits into four tokens, and ValueError otherwise. *)
Theorem old_parse_Covariance_List_contract :
  forall Els : list string,
    (length (filter is_cov_line Els) <> 7%nat ->
     _old_parse_Covariance_List Els
     = Returned (covErr_empty :: repeat EmptyString 21))
    /\ (length (filter is_cov_line Els) = 7%nat ->
        (forall toks,
            rows_tokens (filter is_cov_line Els) = Some toks ->
            _old_parse_Covariance_List Els = Returned (EmptyString :: toks)
            /\ length toks = 21%nat)
        /\ (rows_tokens (filter is_cov_line Els) = None ->
            _old_parse_Covariance_List Els = Raised ValueError_unpack)).
Proof.
  intros Els. split.
  - intros Hlen. unfold _old_parse_Covariance_List.
    apply Nat.eqb_neq in Hlen. now rewrite Hlen.
  - intros Hlen. rewrite (old_parse_Covariance_List_rows Els Hlen). split.
    + intros toks Htoks. rewrite Htoks. split; [reflexivity|].
      rewrite (rows_tokens_length _ _ Htoks), Hlen. reflexivity.
    + intros Hnone. now rewrite Hnone.
Qed.

Lemma old_parse_Covariance_List_contract_witness :
  _old_parse_Covariance_List (firstn 4 covariance_lines_fixture)
  = Returned (covErr_empty :: repeat EmptyString 21)
  /\ _old_parse_Covariance_List covariance_lines_fixture
     = Returned
         [EmptyString; "1"; "2"; "3"; "4"; "5"; "6"; "7"; "8"; "9"; "10";
          "11"; "12"; "13"; "14"; "15"; "16"; "17"; "18"; "19"; "20"; "21"]
  /\ _old_parse_Covariance_List malformed_covariance_lines
     = Raised ValueError_unpack.
Proof.
  split; [|split].
  - apply (proj1 (old_parse_Covariance_List_contract
                    (firstn 4 covariance_lines_fixture))).
    vm_compute. discriminate.
  - apply (proj1 (proj2 (old_parse_Covariance_List_contract
                           covariance_lines_fixture) eq_refl)).
    reflexivity.
  - apply (proj2 (proj2 (old_parse_Covariance_List_contract
                           malformed_covariance_lines) eq_refl)).
    reflexivity.
Defined.

Section ParsersAgree.

Variable float : string -> option R.

Lemma parsed_row_tokens line x y z :
  parsed_row float line = Some [x; y; z] ->
  exists a b c,
    row_tokens line = Some [a; b; c]
    /\ float a = Some x /\ float b = Some y /\ float c = Some z.
Proof.
  unfold parsed_row, row_tokens.
  destruct (split line) as [|t0 [|a [|b [|c [|t4 ts]]]]]; try discriminate.
  destruct (float a) as [x'|] eqn:Ha; [|discriminate].
  destruct (float b) as [y'|] eqn:Hb; [|discriminate].
  destruct (float c) as [z'|] eqn:Hc; [|discriminate].
  intros H. injection H as -> -> ->. exists a, b, c. auto.
Qed.

Lemma parsed_entries_tokens_convert lines xs :
  parsed_entries float lines = Some xs ->
  exists toks,
    rows_tokens lines = Some toks
    /\ Forall2 (fun s x => float s = Some x) toks xs.
Proof.
  revert xs; induction lines as [|l ls IH]; intros xs Hxs.
  - cbn in Hxs. injection Hxs as <-. exists []. split; constructor.
  - apply parsed_entries_cons in Hxs as (x & y & z & rs & Hrow & Hrs & ->).
    destruct (parsed_row_tokens l x y z Hrow) as (a & b & c & Ht & Ha & Hb & Hc).
    destruct (IH rs Hrs) as (toks & Htoks & Hall).
    exists (a :: b :: c :: toks). cbn [rows_tokens]. rewrite Ht, Htoks.
    split; [reflexivity|]. repeat constructor; assumption.
Qed.

(** The two covariance parsers agree.  Whenever the parser in use returns,
    the superseded one returns too; their absent results go together (a
    false flag with the error text); and with a true flag the superseded
    parser gives the 21 strings whose conversions fill the upper triangle
    of the matrix, row by row. *)
Theorem covariance_parsers_agree :
  forall (Els : list string) (CoV_EXISTS : bool) (M : list (list R)),
    _parse_Covariance_List float Els = Returned (CoV_EXISTS, Array2 M) ->
    exists covErr toks,
      _old_parse_Covariance_List Els = Returned (covErr :: toks)
      /\ length toks = 21%nat
      /\ (CoV_EXISTS = false -> covErr = covErr_empty)
      /\ (CoV_EXISTS = true ->
          covErr = EmptyString
          /\ forall i j, (i <= j)%nat -> (j < 6)%nat ->
               float (nth (upper_index i j) toks EmptyString)
               = Some (entry M i j)).
Proof.
  intros Els ex M H.
  destruct (Nat.eq_dec (length (filter is_cov_line Els)) 7) as [Hlen | Hlen].
  - destruct (parsed_entries float (filter is_cov_line Els)) as [xs|] eqn:E.
    + rewrite (parse_Covariance_List_present float Els xs Hlen E) in H.
      injection H as <- <-.
      destruct (parsed_entries_tokens_convert _ xs E) as (toks & Htoks & Hall).
      exists EmptyString, toks.
      rewrite (old_parse_Covariance_List_rows Els Hlen), Htoks.
      assert (Hlt : length toks = 21%nat)
        by (rewrite (rows_tokens_length _ _ Htoks), Hlen; reflexivity).
      split; [reflexivity|]. split; [exact Hlt|].
      split; [discriminate|]. intros _. split; [reflexivity|].
      intros i j Hij Hj.
      rewrite (proj1 (upper_mirrored_entries xs i j Hij Hj)).
      assert (Hk : (upper_index i j < length toks)%nat).
      { rewrite Hlt. assert (Hi : (i < 6)%nat) by lia.
        destruct (lt_6_cases i Hi) as [-> | [-> | [-> | [-> | [-> | ->]]]]];
          destruct (lt_6_cases j Hj) as [-> | [-> | [-> | [-> | [-> | ->]]]]];
          try (exfalso; lia); cbv; lia. }
      clear - Hall Hk. revert Hk. generalize (upper_index i j) as k.
      induction Hall as [|s x toks xs Hsx Hall IH]; intros k Hk;
        [cbn in Hk; lia|].
      destruct k as [|k]; [exact Hsx|]. cbn [nth]. apply IH.
      cbn [length] in Hk. lia.
    + destruct (parse_Covariance_List_unparsed float Els Hlen E) as (e & He & _).
      rewrite He in H. discriminate.
  - rewrite (parse_Covariance_List_absent float Els Hlen) in H.
    injection H as <- <-.
    exists covErr_empty, (repeat EmptyString 21).
    split; [|split; [reflexivity|split; [reflexivity|discriminate]]].
    unfold _old_parse_Covariance_List.
    apply Nat.eqb_neq in Hlen. now rewrite Hlen.
Qed.

End ParsersAgree.

Lemma covariance_parsers_agree_witness :
  exists covErr toks,
    _old_parse_Covariance_List covariance_lines_fixture
    = Returned (covErr :: toks)
    /\ length toks = 21%nat
    /\ (true = false -> covErr = covErr_empty)
    /\ (true = true ->
        covErr = EmptyString
        /\ forall i j, (i <= j)%nat -> (j < 6)%nat ->
             float_fixture (nth (upper_index i j) toks EmptyString)
             = Some (entry covariance_fixture i j)).
Proof.
  apply (covariance_parsers_agree float_fixture covariance_lines_fixture
           true covariance_fixture).
  reflexivity.
Defined.

(** ** The file parser, further *)

Section FileParserFurther.

Variable float : string -> option R.
Variable readlines : string -> option (list string).

Lemma parse_section_keeps_outputs carEls self :
  bary_and_tstart (fst (parse_section float carEls self))
  = bary_and_tstart self.
Proof.
  unfold parse_section. unfold mbind at 1, lift at 1.
  destruct (getitem carEls 1) as [line1 | e | ]; [|reflexivity..].
  destruct (split line1)
    as [|t0 [|sx [|sy [|sz [|sdx [|sdy [|sdz [|t7 ts]]]]]]]];
    try reflexivity.
  unfold mbind at 1 2 3 4 5 6, lift at 1 2 3 4 5 6, to_float.
  destruct (float sx) as [x|]; [|reflexivity].
  destruct (float sy) as [y|]; [|reflexivity].
  destruct (float sz) as [z|]; [|reflexivity].
  destruct (float sdx) as [dx|]; [|reflexivity].
  destruct (float sdy) as [dy|]; [|reflexivity].
  destruct (float sdz) as [dz|]; [|reflexivity].
  unfold mbind at 1 2 3, assign at 1 2, lift at 1.
  destruct (getitem carEls 2) as [line2 | e | ];
    [|destruct self; reflexivity..].
  destruct (split line2) as [|t1 [|smjd [|t2 [|t3 ts]]]];
    try (destruct self; reflexivity).
  unfold mbind at 1, lift at 1.
  destruct (float smjd) as [mjd|]; [|destruct self; reflexivity].
  unfold mbind, assign, lift.
  destruct (_parse_Covariance_List float carEls) as [[ex cov] | e | ];
    destruct self; reflexivity.
Qed.

Lemma parse_orbfit_frame felfile self :
  bary_and_tstart (fst (parse_orbfit float readlines felfile self))
  = bary_and_tstart self.
Proof.
  unfold parse_orbfit. unfold mbind at 1, lift at 1.
  destruct (readlines felfile) as [el|]; [|reflexivity].
  destruct (0 <? count cart_head el)%nat; [|reflexivity].
  unfold mbind at 1, lift at 1, index_or_raise.
  destruct (index cart_head (rev el)) as [i|]; [|reflexivity].
  exact (parse_section_keeps_outputs _ self).
Qed.

(** Whatever the file and whatever the outcome, the parser leaves the
    barycentric-equatorial fields and [tstart] as they were: it only ever
    writes the heliocentric-ecliptic fields and the epoch. *)
Theorem parse_orbfit_keeps_outputs :
  forall (felfile : string) (self : ParseElements),
    bary_and_tstart (fst (parse_orbfit float readlines felfile self))
    = bary_and_tstart self.
Proof. exact parse_orbfit_frame. Qed.

(** The section is the header and the 24 lines after it: two files whose
    last sections agree on their first 24 lines are parsed alike, so that
    covariance rows further down are not seen. *)
Theorem parse_orbfit_reads_24_lines :
  forall (felfile felfile' : string) (pre pre' post post' : list string)
         (self : ParseElements),
    readlines felfile = Some (pre ++ cart_head :: post) ->
    readlines felfile' = Some (pre' ++ cart_head :: post') ->
    ~ In cart_head post -> ~ In cart_head post' ->
    firstn 24 post = firstn 24 post' ->
    parse_orbfit float readlines felfile self
    = parse_orbfit float readlines felfile' self.
Proof.
  intros felfile felfile' pre pre' post post' self Hf Hf' Hno Hno' Heq.
  rewrite (parse_orbfit_last_section float readlines felfile pre post self
             Hf Hno).
  rewrite (parse_orbfit_last_section float readlines felfile' pre' post' self
             Hf' Hno').
  change (firstn 25 (cart_head :: post)) with (cart_head :: firstn 24 post).
  change (firstn 25 (cart_head :: post'))
    with (cart_head :: firstn 24 post').
  now rewrite Heq.
Qed.

(** A failure on the line at offset 1 leaves the object untouched: the
    line is missing (IndexError), does not split into seven tokens
    (ValueError on unpacking), or one of its six fields does not convert
    (ValueError from float). *)
Theorem parse_orbfit_first_line_failures :
  forall (felfile : string) (pre post : list string) (self : ParseElements),
    readlines felfile = Some (pre ++ cart_head :: post) ->
    ~ In cart_head post ->
    (post = [] ->
     parse_orbfit float readlines felfile self = (self, Raised IndexError))
    /\ (forall l1 rest,
           post = l1 :: rest -> length (split l1) <> 7%nat ->
           parse_orbfit float readlines felfile self
           = (self, Raised ValueError_unpack))
    /\ (forall l1 rest t0 fields,
           post = l1 :: rest -> split l1 = t0 :: fields ->
           length fields = 6%nat ->
           (exists s, In s fields /\ float s = None) ->
           parse_orbfit float readlines felfile self
           = (self, Raised ValueError_float)).
Proof.
  intros felfile pre post self Hf Hno.
  rewrite (parse_orbfit_last_section float readlines felfile pre post self
             Hf Hno).
  split; [|split].
  - intros ->. reflexivity.
  - intros l1 rest -> Hlen. unfold parse_section.
    unfold mbind at 1, lift at 1. cbn [firstn getitem nth_error].
    destruct (split l1)
      as [|t0 [|sx [|sy [|sz [|sdx [|sdy [|sdz [|t7 ts]]]]]]]];
      try reflexivity.
    exfalso. apply Hlen. reflexivity.
  - intros l1 rest t0 fields -> Hl1 Hlen (s & Hin & Hs).
    explode_list fields Hlen. unfold parse_section.
    unfold mbind at 1, lift at 1. cbn [firstn getitem nth_error].
    rewrite Hl1. unfold mbind at 1 2 3 4 5 6, lift at 1 2 3 4 5 6, to_float.
    repeat match goal with
           | |- context [float ?tok] =>
               destruct (float tok) eqn:?; [|reflexivity]
           end.
    exfalso. cbn [In] in Hin.
    repeat (destruct Hin as [<- | Hin]; [congruence|]). exact Hin.
Qed.

(** A failure on the line at offset 2 comes after the vector was stored:
    the parser raises (IndexError for a missing line, ValueError for a
    line that is not three tokens or an epoch that does not convert) and
    leaves the object with the vector and a true vector flag, the epoch
    and the covariance fields not written. *)
Theorem parse_orbfit_second_line_failures :
  forall (felfile : string) (pre post : list string) (self : ParseElements)
         l1 rest t0 sx sy sz sdx sdy sdz x y z dx dy dz,
    readlines felfile = Some (pre ++ cart_head :: post) ->
    ~ In cart_head post ->
    post = l1 :: rest ->
    split l1 = [t0; sx; sy; sz; sdx; sdy; sdz] ->
    float sx = Some x -> float sy = Some y -> float sz = Some z ->
    float sdx = Some dx -> float sdy = Some dy -> float sdz = Some dz ->
    let self1 :=
      with_helio_ecl_vec_EXISTS true
        (with_helio_ecl_vec (Some (Array1 [x; y; z; dx; dy; dz])) self) in
    (rest = [] ->
     parse_orbfit float readlines felfile self = (self1, Raised IndexError))
    /\ (forall l2 rest',
           rest = l2 :: rest' -> length (split l2) <> 3%nat ->
           parse_orbfit float readlines felfile self
           = (self1, Raised ValueError_unpack))
    /\ (forall l2 rest' t1 smjd t2,
           rest = l2 :: rest' -> split l2 = [t1; smjd; t2] ->
           float smjd = None ->
           parse_orbfit float readlines felfile self
           = (self1, Raised ValueError_float)).
Proof.
  intros felfile pre post self l1 rest t0 sx sy sz sdx sdy sdz x y z dx dy dz
         Hf Hno -> Hl1 Hx Hy Hz Hdx Hdy Hdz self1.
  rewrite (parse_orbfit_last_section float readlines felfile pre _ self
             Hf Hno).
  split; [|split];
    [intros -> | intros l2 rest' -> Hlen
     | intros l2 rest' t1 smjd t2 -> Hl2 Hmjd];
    unfold parse_section; unfold mbind at 1, lift at 1;
    cbn [firstn getitem nth_error]; rewrite Hl1;
    unfold mbind at 1 2 3 4 5 6, lift at 1 2 3 4 5 6, to_float;
    rewrite Hx, Hy, Hz, Hdx, Hdy, Hdz;
    unfold mbind at 1 2 3, assign at 1 2, lift at 1; fold self1.
  - reflexivity.
  - destruct (split l2) as [|t1 [|smjd [|t2 [|t3 ts]]]]; try reflexivity.
    exfalso. apply Hlen. reflexivity.
  - rewrite Hl2. unfold mbind at 1, lift at 1, to_float. now rewrite Hmjd.
Qed.

End FileParserFurther.

Lemma parse_orbfit_reads_24_lines_witness :
  parse_orbfit float_fixture readlines_fixture "two_sections.fel" empty_object
  = parse_orbfit float_fixture readlines_fixture "one_section.fel"
      empty_object.
Proof.
  apply (parse_orbfit_reads_24_lines float_fixture readlines_fixture
           "two_sections.fel" "one_section.fel"
           first_section_fixture [] last_section_fixture last_section_fixture
           empty_object eq_refl eq_refl
           last_section_fixture_no_header last_section_fixture_no_header
           eq_refl).
Defined.

Lemma parse_orbfit_first_line_failures_witness :
  parse_orbfit float_fixture truncated_files_fixture "header_only.fel"
    empty_object
  = (empty_object, Raised IndexError).
Proof.
  apply (proj1 (parse_orbfit_first_line_failures float_fixture
                  truncated_files_fixture "header_only.fel" [] []
                  empty_object eq_refl (fun H => H))).
  reflexivity.
Defined.

Lemma parse_orbfit_second_line_failures_witness :
  parse_orbfit float_fixture truncated_files_fixture "vector_only.fel"
    empty_object
  = (with_helio_ecl_vec_EXISTS true
       (with_helio_ecl_vec (Some (Array1 [1; 2; 3; 0.1; 0.2; 0.3]))
          empty_object),
     Raised IndexError).
Proof.
  assert (Hno : ~ In cart_head [("X 1.0 2.0 3.0 0.1 0.2 0.3" ++ nl)%string])
    by (apply count_absent; reflexivity).
  apply (proj1 (parse_orbfit_second_line_failures float_fixture
                  truncated_files_fixture "vector_only.fel" [] _
                  empty_object
                  ("X 1.0 2.0 3.0 0.1 0.2 0.3" ++ nl)%string []
                  "X" "1.0" "2.0" "3.0" "0.1" "0.2" "0.3"
                  1 2 3 0.1 0.2 0.3
                  eq_refl Hno eq_refl eq_refl eq_refl eq_refl eq_refl
                  eq_refl eq_refl eq_refl)).
  reflexivity.
Defined.

(** ** The constructor and the output file, further *)

Lemma append_starts (a b : string) : starts_with a (a ++ b)%string.
Proof. exists b. reflexivity. Qed.

Lemma starts_with_trans (a b c : string) :
  starts_with a b -> starts_with b c -> starts_with a c.
Proof.
  intros [r1 ->] [r2 ->]. exists (r1 ++ r2)%string. apply append_assoc.
Qed.

Section OrchestratorFurther.

Variable compute_and_differentiate : R -> vec3 * vec3.
Variable tdb_jd : Time -> R.
Variable float : string -> option R.
Variable readlines : string -> option (list string).
Variable format_float : string -> R -> string.

Lemma write_coeffs_extends n coeffs out :
  starts_with out (write_coeffs format_float n coeffs out).
Proof.
  revert n out; induction coeffs as [|c coeffs IH]; intros n out;
    cbn [write_coeffs].
  - exists EmptyString. now rewrite append_empty_r.
  - eapply starts_with_trans; [apply append_starts | apply IH].
Qed.

(** Serialization, whatever the object holds.  Without an epoch the file
    is not opened and the object is unchanged (AttributeError).  With an
    epoch (one that converts to TDB) the file is opened, [tstart] becomes
    the epoch's TDB Julian date and no other field changes, and the text
    passed to [outfile.write] begins with the five header lines whatever
    the outcome: when the vector is missing, exactly the header was passed
    to [write] before TypeError is raised. *)
Theorem save_elements_header_first :
  forall self : ParseElements,
    (time self = None ->
     save_elements tdb_jd format_float self
     = (self, None, Raised AttributeError))
    /\ (forall t, time self = Some t ->
        exists text r,
          save_elements tdb_jd format_float self
          = (with_tstart (Some (tdb_jd t)) self, Some text, r)
          /\ starts_with
               (output_header (format_float EmptyString (tdb_jd t))) text
          /\ (bary_eq_vec self = None ->
              text = output_header (format_float EmptyString (tdb_jd t))
              /\ r = Raised TypeError_not_iterable)
          /\ (forall coeffs, bary_eq_vec self = Some (Array1 coeffs) ->
              r = Returned tt)).
Proof.
  intros self. split.
  - intros Ht. unfold save_elements. now rewrite Ht.
  - intros t Ht. unfold save_elements. rewrite Ht.
    replace (bary_eq_vec (with_tstart (Some (tdb_jd t)) self))
      with (bary_eq_vec self) by (now destruct self).
    assert (Hhead :
              ("tstart " ++ format_float EmptyString (tdb_jd t) ++ nl
               ++ "tstep +20.0" ++ nl ++ "trange 600." ++ nl
               ++ "geocentric 0" ++ nl ++ "state" ++ nl)%string
              = output_header (format_float EmptyString (tdb_jd t))).
    { unfold output_header. cbn [unlines fold_right].
      now rewrite !append_assoc, !append_empty_r. }
    rewrite Hhead.
    set (header := output_header (format_float EmptyString (tdb_jd t))).
    assert (Hself : starts_with header header)
      by (exists EmptyString; now rewrite append_empty_r).
    destruct (bary_eq_vec self) as [[x | coeffs | [|row m] | [|d0] d1 d2 ds]|];
      eexists; eexists; (split; [reflexivity|]);
      (split; [try exact Hself; apply write_coeffs_extends|]);
      (split; [try discriminate; auto|]);
      intros coeffs' H; try discriminate H; reflexivity.
Qed.

(** A file type other than ele220, fel and eq: the constructor parses
    nothing, does not read the file, and the transform step raises the
    nothing-to-transform error; no object is returned. *)
Theorem constructor_unknown_filetype :
  forall (input_file filetype : string) (save_parsed : bool),
    filetype <> "ele220" -> filetype <> "fel" -> filetype <> "eq" ->
    init compute_and_differentiate tdb_jd float readlines format_float
      (Some input_file) (Some filetype) save_parsed
    = (empty_object, None, Raised TypeError_nothing_to_transform)
    /\ ParseElements_new compute_and_differentiate tdb_jd float readlines
         format_float (Some input_file) (Some filetype) save_parsed
       = Raised TypeError_nothing_to_transform.
Proof.
  intros input_file filetype save_parsed H1 H2 H3.
  assert (Hinit :
            init compute_and_differentiate tdb_jd float readlines format_float
              (Some input_file) (Some filetype) save_parsed
            = (empty_object, None, Raised TypeError_nothing_to_transform)).
  { unfold init.
    apply String.eqb_neq in H1, H2, H3. rewrite H1, H2, H3. reflexivity. }
  split; [exact Hinit|]. unfold ParseElements_new. now rewrite Hinit.
Qed.

End OrchestratorFurther.

Lemma save_elements_header_first_witness :
  exists text r,
    save_elements tdb_jd_fixture format_fixture transformed_fixture
    = (with_tstart (Some (tdb_jd_fixture (mkTime 58849 fmt_mjd scale_tt)))
         transformed_fixture, Some text, r)
    /\ starts_with
         (output_header
            (format_fixture EmptyString
               (tdb_jd_fixture (mkTime 58849 fmt_mjd scale_tt)))) text
    /\ (bary_eq_vec transformed_fixture = None ->
        text = output_header
                 (format_fixture EmptyString
                    (tdb_jd_fixture (mkTime 58849 fmt_mjd scale_tt)))
        /\ r = Raised TypeError_not_iterable)
    /\ (forall coeffs, bary_eq_vec transformed_fixture = Some (Array1 coeffs) ->
        r = Returned tt).
Proof.
  apply (proj2 (save_elements_header_first tdb_jd_fixture format_fixture
                  transformed_fixture) (mkTime 58849 fmt_mjd scale_tt)).
  reflexivity.
Defined.

Lemma constructor_unknown_filetype_witness :
  ParseElements_new ephemeris_fixture tdb_jd_fixture float_fixture
    readlines_fixture format_fixture
    (Some "two_sections.fel") (Some "FEL") true
  = Raised TypeError_nothing_to_transform.
Proof.
  apply (proj2 (constructor_unknown_filetype ephemeris_fixture tdb_jd_fixture
                  float_fixture readlines_fixture format_fixture
                  "two_sections.fel" "FEL" true
                  ltac:(discriminate) ltac:(discriminate)
                  ltac:(discriminate))).
Defined.

(** ** The constructor, end to end *)

Section ConstructorPipeline.

Variable compute_and_differentiate : R -> vec3 * vec3.
Variable tdb_jd : Time -> R.
Variable float : string -> option R.
Variable readlines : string -> option (list string).
Variable format_float : string -> R -> string.

Lemma junk_object_transformable : transformable junk_object.
Proof.
  split; intros _.
  - exists [3; 2; 1; 0.3; 0.2; 0.1], (mkTime 2458849.5 fmt_jd scale_tdb).
    repeat split. right. reflexivity.
  - eexists. split; reflexivity.
Qed.

Lemma get_and_set_junk_data_default :
  _get_and_set_junk_data compute_and_differentiate tdb_jd false empty_object
  = match make_bary_equatorial compute_and_differentiate tdb_jd junk_object
    with
    | (self, Returned _) => (self, Returned tt)
    | (self, Raised e) => (self, Raised e)
    | (self, Exited) => (self, Exited)
    end.
Proof. reflexivity. Qed.

(** Saving an object that holds an epoch and a 1-D vector. *)
Lemma save_elements_vector self t w :
  time self = Some t -> bary_eq_vec self = Some (Array1 w) ->
  exists text,
    save_elements tdb_jd format_float self
    = (with_tstart (Some (tdb_jd t)) self, Some text, Returned tt).
Proof.
  intros Ht Hw. unfold save_elements. rewrite Ht.
  replace (bary_eq_vec (with_tstart (Some (tdb_jd t)) self))
    with (Some (Array1 w)) by (now destruct self).
  eexists. reflexivity.
Qed.

(** The ele220 file type: the constructor does not read the file (the
    result is the same for every file system and every file name); it
    returns an object made from the placeholder data, with the
    heliocentric fields set, the transform step run twice to the same
    effect, and all four flags true; with [save_parsed] the output file
    is written. *)
Theorem constructor_ele220_placeholder :
  forall (input_file : string) (save_parsed : bool),
    exists self out,
      init compute_and_differentiate tdb_jd float readlines format_float
        (Some input_file) (Some "ele220") save_parsed
      = (self, out, Returned tt)
      /\ ParseElements_new compute_and_differentiate tdb_jd float readlines
           format_float (Some input_file) (Some "ele220") save_parsed
         = Returned self
      /\ helio_ecl_vec self = Some (Array1 [3; 2; 1; 0.3; 0.2; 0.1])
      /\ time self = Some (mkTime 2458849.5 fmt_jd scale_tdb)
      /\ helio_ecl_vec_EXISTS self = true
      /\ helio_ecl_cov_EXISTS self = true
      /\ bary_eq_vec_EXISTS self = true
      /\ bary_eq_cov_EXISTS self = true
      /\ (out = None <-> save_parsed = false).
Proof.
  intros input_file save_parsed.
  destruct (make_bary_equatorial_returns compute_and_differentiate tdb_jd
              junk_object junk_object_transformable (or_introl eq_refl))
    as (s1 & Hmake & Hbv & Hbc & Hvec & _ & _).
  destruct (make_bary_equatorial_again compute_and_differentiate tdb_jd
              junk_object s1 true Hmake) as [_ Hagain].
  pose proof (make_bary_equatorial_frame compute_and_differentiate tdb_jd
                junk_object) as Hframe.
  rewrite Hmake in Hframe. cbn [fst] in Hframe.
  unfold helio_and_times in Hframe. cbn in Hframe.
  injection Hframe as Hve Hv Hce Hc Ht Hts.
  destruct (Hvec eq_refl) as (w & Hw & _).
  assert (Hrun :
            ((if String.eqb "ele220" "ele220"
              then parse_ele220 compute_and_differentiate tdb_jd
                     (Some input_file)
              else mret tt) ;;
             (if String.eqb "ele220" "fel" || String.eqb "ele220" "eq"
              then parse_orbfit float readlines input_file else mret tt) ;;
             make_bary_equatorial compute_and_differentiate tdb_jd)%method
              empty_object
            = (s1, Returned true)).
  { change (String.eqb "ele220" "ele220") with true.
    change (String.eqb "ele220" "fel" || String.eqb "ele220" "eq")
      with false.
    cbv beta iota. unfold mbind at 1. unfold parse_ele220.
    rewrite get_and_set_junk_data_default, Hmake.
    unfold mbind, mret. exact Hagain. }
  unfold ParseElements_new, init. rewrite Hrun.
  destruct save_parsed.
  - destruct (save_elements_vector s1 _ w Ht Hw) as (text & ->).
    eexists. eexists. split; [reflexivity|]. split; [reflexivity|].
    destruct s1; cbn in *. subst.
    repeat split; try reflexivity; discriminate.
  - exists s1, None. split; [reflexivity|]. split; [reflexivity|].
    cbn in Hbv, Hbc. repeat split; auto.
Qed.

Lemma parse_orbfit_returns_vector felfile self s1 :
  parse_orbfit float readlines felfile self = (s1, Returned tt) ->
  helio_ecl_vec_EXISTS s1 = true.
Proof.
  intros Hret.
  destruct (readlines felfile) as [el|] eqn:Hfile;
    [|unfold parse_orbfit in Hret; unfold mbind at 1, lift at 1 in Hret;
      rewrite Hfile in Hret; discriminate].
  destruct (in_dec string_dec cart_head el) as [Hin | Hno];
    [|rewrite (parse_orbfit_no_header float readlines felfile el self
                 Hfile Hno) in Hret; discriminate].
  destruct (last_occurrence cart_head el Hin) as (pre & post & -> & Hpost).
  rewrite (parse_orbfit_last_section float readlines felfile pre post self
             Hfile Hpost) in Hret.
  destruct (parse_section_returns float post self s1 Hret)
    as (l1 & l2 & rest & t0 & sx & sy & sz & sdx & sdy & sdz
        & x & y & z & dx & dy & dz & t1 & smjd & t2 & mjd
        & -> & Hl1 & Hx & Hy & Hz & Hdx & Hdy & Hdz & Hl2 & Hmjd).
  rewrite (parse_section_lines float self l1 l2 rest _ _ _ _ _ _ _ _ _ _ _ _ _
             _ _ _ _ Hl1 Hx Hy Hz Hdx Hdy Hdz Hl2 Hmjd) in Hret.
  destruct (_parse_Covariance_List float _) as [[ex cov] | e | ];
    try discriminate.
  injection Hret as <-. now destruct self.
Qed.

(** The fel and eq file types.  When the parser returns on the file (and
    the parsed epoch converts to TDB), the constructor returns: the object
    has the parsed heliocentric fields and epoch, a true barycentric
    vector flag, and a barycentric covariance flag equal to the parsed
    covariance flag, and [save_elements] is called exactly when
    [save_parsed] is set.  When the parser raises, the constructor raises
    the same exception and the transform step is not run. *)
Theorem constructor_follows_parser :
  forall (felfile filetype : string) (save_parsed : bool)
         (s1 : ParseElements),
    filetype = "fel" \/ filetype = "eq" ->
    (parse_orbfit float readlines felfile empty_object
     = (s1, Returned tt) ->
     exists self out,
       init compute_and_differentiate tdb_jd float readlines format_float
         (Some felfile) (Some filetype) save_parsed
       = (self, out, Returned tt)
       /\ helio_ecl_vec self = helio_ecl_vec s1
       /\ helio_ecl_cov self = helio_ecl_cov s1
       /\ time self = time s1
       /\ bary_eq_vec_EXISTS self = true
       /\ bary_eq_cov_EXISTS self = helio_ecl_cov_EXISTS s1
       /\ (out = None <-> save_parsed = false))
    /\ (forall e,
           parse_orbfit float readlines felfile empty_object
           = (s1, Raised e) ->
           init compute_and_differentiate tdb_jd float readlines format_float
             (Some felfile) (Some filetype) save_parsed
           = (s1, None, Raised e)).
Proof.
  intros felfile filetype save_parsed s1 Hft.
  assert (Hinit :
            init compute_and_differentiate tdb_jd float readlines format_float
              (Some felfile) (Some filetype) save_parsed
            = match
                match parse_orbfit float readlines felfile empty_object with
                | (s, Returned _) =>
                    make_bary_equatorial compute_and_differentiate tdb_jd s
                | (s, Raised e) => (s, Raised e)
                | (s, Exited) => (s, Exited)
                end
              with
              | (self, Returned _) =>
                  if save_parsed
                  then save_elements tdb_jd format_float self
                  else (self, None, Returned tt)
              | (self, Raised e) => (self, None, Raised e)
              | (self, Exited) => (self, None, Exited)
              end).
  { unfold init. destruct Hft as [-> | ->]; reflexivity. }
  rewrite Hinit. clear Hinit. split.
  - intros Hparse. rewrite Hparse.
    pose proof (parse_orbfit_transformable float readlines felfile
                  empty_object s1 Hparse) as Htr.
    pose proof (parse_orbfit_returns_vector felfile empty_object s1 Hparse)
      as Hflag.
    pose proof (parse_orbfit_frame float readlines felfile empty_object)
      as Hout.
    rewrite Hparse in Hout. cbn [fst] in Hout.
    unfold bary_and_tstart in Hout. cbn in Hout.
    injection Hout as Hbve Hbv Hbce Hbc Hts.
    destruct (make_bary_equatorial_returns compute_and_differentiate tdb_jd
                s1 Htr (or_introl Hflag))
      as (s2 & Hmake & Hv2 & Hc2 & Hvec & _ & _).
    rewrite Hmake.
    pose proof (make_bary_equatorial_frame compute_and_differentiate tdb_jd
                  s1) as Hframe.
    rewrite Hmake in Hframe. cbn [fst] in Hframe.
    unfold helio_and_times in Hframe.
    injection Hframe as Hve Hv Hce Hc Ht Hts2.
    rewrite Hflag in Hv2. cbn [orb] in Hv2.
    rewrite Hbce, orb_false_r in Hc2.
    destruct (Hvec Hflag) as (w & Hw & _).
    destruct save_parsed.
    + destruct Htr as [Htr _].
      destruct (Htr Hflag) as (v0 & t0 & _ & _ & Ht0).
      assert (Ht2 : time s2 = Some t0) by congruence.
      destruct (save_elements_vector s2 t0 w Ht2 Hw) as (text & ->).
      eexists. eexists. split; [reflexivity|].
      destruct s2; cbn in *. subst.
      repeat split; try reflexivity; discriminate.
    + exists s2, None. split; [reflexivity|].
      repeat split; auto.
  - intros e Hparse. now rewrite Hparse.
Qed.

End ConstructorPipeline.

Lemma constructor_follows_parser_witness :
  exists self out,
    init ephemeris_fixture tdb_jd_fixture float_fixture readlines_fixture
      format_fixture (Some "two_sections.fel") (Some "fel") true
    = (self, out, Returned tt)
    /\ helio_ecl_vec self = Some (Array1 [1; 2; 3; 0.1; 0.2; 0.3])
    /\ helio_ecl_cov self = Some (Array2 covariance_fixture)
    /\ time self = Some (mkTime 58849 fmt_mjd scale_tt)
    /\ bary_eq_vec_EXISTS self = true
    /\ bary_eq_cov_EXISTS self = true
    /\ (out = None <-> true = false).
Proof.
  apply (proj1 (constructor_follows_parser ephemeris_fixture tdb_jd_fixture
                  float_fixture readlines_fixture format_fixture
                  "two_sections.fel" "fel" true parsed_fixture
                  (or_introl eq_refl))).
  reflexivity.
Defined.

Lemma constructor_ele220_placeholder_witness :
  exists self out,
    init ephemeris_fixture tdb_jd_fixture float_fixture readlines_fixture
      format_fixture (Some "no_such_file") (Some "ele220") true
    = (self, out, Returned tt)
    /\ ParseElements_new ephemeris_fixture tdb_jd_fixture float_fixture
         readlines_fixture format_fixture
         (Some "no_such_file") (Some "ele220") true
       = Returned self
    /\ helio_ecl_vec self = Some (Array1 [3; 2; 1; 0.3; 0.2; 0.1])
    /\ time self = Some (mkTime 2458849.5 fmt_jd scale_tdb)
    /\ helio_ecl_vec_EXISTS self = true
    /\ helio_ecl_cov_EXISTS self = true
    /\ bary_eq_vec_EXISTS self = true
    /\ bary_eq_cov_EXISTS self = true
    /\ (out = None <-> true = false).
Proof.
  exact (constructor_ele220_placeholder ephemeris_fixture tdb_jd_fixture
           float_fixture readlines_fixture format_fixture
           "no_such_file" true).
Defined.
